(** * trade-bot: a command-line order placer for a futures testnet

    A shallow embedding of [bot.py] and the properties of its
    specification.  The program is a straight line: parse and validate
    the command line, read two credentials from the environment, build
    an exchange client, submit one order, report.

    Conventions of the embedding.
    - Python [float] is IEEE 754 binary64, modelled by [spec_float]
      (zeros, infinities, NaN, finite values) with its comparison
      [SFleb]; the conversion [float(s)] of a string is a parameter of
      the parser.
    - Python [str] is modelled by [string] restricted to ASCII; [upper]
      maps the letters a..z and leaves every other character alone.
    - Effects are modelled by a trace monad: a computation yields the list
      of events it performed and either a value, a raised exception or
      a process exit ([sys.exit]).  [except Exception] handles raised
      exceptions and lets a process exit through, as [SystemExit] is not
      an [Exception].
    - The exchange client is an oracle: a record of the answers its
      calls give.  Every call is recorded in the trace.
    - An attribute of the parsed arguments holds a value of its
      option's type or the empty list, which argparse stores when the
      explicit argument of the option is the separator [--]; comparing
      the list with a number or upper-casing it raises, as in Python.
    - [load_dotenv] and [setup_logging] run when the module is loaded
      and are taken to succeed; the environment is the one they leave,
      and a log record is one event, whatever handlers receive it. *)

From Stdlib Require Import ZArith Ascii String List Bool.
From Stdlib Require Import Floats.SpecFloat.
From stdpp Require Import base option list strings gmap pretty.

Open Scope string_scope.
Open Scope list_scope.

(** ** Floats *)

Abbreviation float := spec_float.

(** The float [0.0], to which Python converts the integer literal [0]
    before comparing it with a float. *)
Definition zero : float := S754_zero false.

(** [x <= 0] on floats: false on NaN, true on both zeros. *)
Definition le_zero (x : float) : bool := SFleb x zero.

(** Truth value of a float: every float but the two zeros is true. *)
Definition float_truthy (x : float) : bool :=
  match x with
  | S754_zero _ => false
  | _ => true
  end.

(** The float nearest to the integer [n] (binary64: 53 bits, emax 1024). *)
Definition float_of_Z (n : Z) : float := binary_normalize 53 1024 n 0 false.

(** ** Strings *)

Definition nl : string := String "010"%char EmptyString.

Definition is_lower (c : ascii) : bool :=
  let n := nat_of_ascii c in (97 <=? n)%nat && (n <=? 122)%nat.

Definition upper_ascii (c : ascii) : ascii :=
  if is_lower c then ascii_of_nat (nat_of_ascii c - 32) else c.

(** [str.upper] on ASCII strings. *)
Fixpoint upper (s : string) : string :=
  match s with
  | EmptyString => EmptyString
  | String c s' => String (upper_ascii c) (upper s')
  end.

(** [sub in s] for a one-character [sub]. *)
Fixpoint contains (c : ascii) (s : string) : bool :=
  match s with
  | EmptyString => false
  | String c' s' => Ascii.eqb c c' || contains c s'
  end.

(** [s.split(c, 1)] when [c] occurs in [s]: the text before the first
    [c] and the text after it. *)
Fixpoint split_once (c : ascii) (s : string) : option (string * string) :=
  match s with
  | EmptyString => None
  | String c' s' =>
      if Ascii.eqb c c' then Some (EmptyString, s')
      else match split_once c s' with
           | Some (a, b) => Some (String c' a, b)
           | None => None
           end
  end.

(** [s.startswith(p)]. *)
Definition startswith (s p : string) : bool := String.prefix p s.

Definition is_digit (c : ascii) : bool :=
  let n := nat_of_ascii c in (48 <=? n)%nat && (n <=? 57)%nat.

Fixpoint all_digits (s : string) : bool :=
  match s with
  | EmptyString => true
  | String c s' => is_digit c && all_digits s'
  end.

(** ** Exceptions, events and the trace monad *)

(** The classes of exception the program tells apart: the two the
    exchange library raises for a rejected request, and, as
    [OtherException], every other class derived from [Exception]
    (a network fault, a response of an unexpected shape). *)
Inductive exn_kind := BinanceAPIException | BinanceOrderException | OtherException.

(** An exception: its class, the [code] and [message] attributes the two
    exchange classes carry, and its text [str(e)]. *)
Record exn := Exn {
  kind : exn_kind;
  code : Z;
  message : string;
  text : string
}.

Inductive outcome (A : Type) :=
| Returns (a : A)
| Raises (e : exn).
Arguments Returns {A} a.
Arguments Raises {A} e.

(** The value of a wire parameter: a string, a float, or the empty
    list an attribute of the parsed arguments can hold. *)
Inductive value :=
| VStr (s : string)
| VFloat (x : float)
| VList.

(** The keyword arguments of the order-creation call, a [dict]. *)
Abbreviation params := (gmap string value).

(** The response of the order-creation call, a [dict]; each value is
    kept by its text. *)
Abbreviation response := (gmap string string).

(** A formatted string is kept by its pieces: literal text, and the
    values whose text is Python's [repr] of a float or of a dict. *)
Inductive piece :=
| Lit (s : string)
| Float (x : float)
| Dict (r : response).

Abbreviation fstring := (list piece).

(** [str(v)] for what [dict.get] returns: the value, or [None]. *)
Definition str_of_get (v : option string) : string := default "None" v.

Inductive level := DEBUG | INFO | ERROR | CRITICAL.

(** What argparse's [error] method reports before it exits. *)
Inductive usage_error :=
| AmbiguousOption (arg : string)
| ExpectedOneArgument (option_string : string)
| IgnoredExplicitArgument (option_string : string)
| InvalidChoice (option_string value : string)
| InvalidFloat (option_string value : string)
| MissingRequired
| UnrecognizedArguments (extras : list string).

Inductive event :=
| Log (lvl : level) (msg : fstring)         (* a record of logger TradingBot *)
| Stdout (msg : fstring)                    (* print(msg) *)
| UsageMessage (err : usage_error)          (* argparse: usage and error on stderr *)
| HelpMessage                               (* argparse: the help text *)
| NewClient (api_key api_secret tld : string) (testnet : bool)
| FuturesPing
| FuturesCreateOrder (p : params).

(** The end of a computation: a value, an exception on its way up, or
    the process exit requested by [sys.exit]. *)
Inductive result (A : Type) :=
| Val (a : A)
| Raise (e : exn)
| Exit (status : Z).
Arguments Val {A} & a.
Arguments Raise {A} e.
Arguments Exit {A} status.

Definition M (A : Type) : Type := list event * result A.

(** A result is elaborated from the type expected of it, so that the
    typed arguments of a command line can be written where the object
    returned by the validation stands. *)
Arguments pair {A B}%_type_scope & a b.

Definition ret {A} (a : A) : M A := ([], Val a).

Definition bind {A B} (m : M A) (f : A -> M B) : M B :=
  match m with
  | (t, Val a) => let '(t', r) := f a in (t ++ t', r)
  | (t, Raise e) => (t, Raise e)
  | (t, Exit n) => (t, Exit n)
  end.

Notation "x <~ m ;; k" := (bind m (fun x => k))
  (at level 100, m at next level, right associativity).
Notation "m ;;; k" := (bind m (fun _ => k))
  (at level 100, right associativity).

Definition emit (ev : event) : M unit := ([ev], Val tt).
Definition raise {A} (e : exn) : M A := ([], Raise e).
Definition sys_exit {A} (status : Z) : M A := ([], Exit status).

(** [try: m except ...]: [handler e] is the body of the first clause
    that matches [e], or [None] when no clause does and [e] goes on up.
    A process exit is no exception of class [Exception] and passes. *)
Definition try_except {A} (m : M A) (handler : exn -> option (M A)) : M A :=
  match m with
  | (t, Raise e) =>
      match handler e with
      | Some k => let '(t', r) := k in (t ++ t', r)
      | None => (t, Raise e)
      end
  | _ => m
  end.

(** A call to the outside: recorded, then answered by the oracle. *)
Definition call {A} (ev : event) (o : outcome A) : M A :=
  emit ev ;;;
  match o with
  | Returns a => ret a
  | Raises e => raise e
  end.

Definition log (lvl : level) (msg : fstring) : M unit := emit (Log lvl msg).
Definition print (msg : fstring) : M unit := emit (Stdout msg).

(** [if c: body], with nothing to do otherwise. *)
Definition when (c : bool) (body : M unit) : M unit :=
  if c then body else ret tt.

(** The trace of a computation and the status the process ends with when
    the computation is the whole program: 0 when it runs to its end, the
    argument of [sys.exit], 1 for an exception nobody caught. *)
Definition trace {A} (m : M A) : list event := fst m.

Definition exit_status {A} (m : M A) : Z :=
  match snd m with
  | Val _ => 0
  | Exit n => n
  | Raise _ => 1
  end.

(** The events that reach the exchange. *)
Definition is_exchange_call (ev : event) : bool :=
  match ev with
  | NewClient _ _ _ _ | FuturesPing | FuturesCreateOrder _ => true
  | _ => false
  end.

Definition exchange_calls (t : list event) : list event :=
  List.filter is_exchange_call t.

Definition is_order_call (ev : event) : bool :=
  match ev with
  | FuturesCreateOrder _ => true
  | _ => false
  end.

Definition order_calls (t : list event) : list event :=
  List.filter is_order_call t.

(** ** The argument parser

    [validate_and_parse_args] declares five options with argparse:
    [--symbol], [--side] and [--type] (strings, required, the last two
    with a list of choices), [--qty] (float, required) and [--price]
    (float, optional); argparse adds [-h]/[--help].  [parse_args] below
    is argparse's parsing of [sys.argv[1:]] for this declaration, as
    CPython 3.11 does it: each argument is first classified as an
    option or a plain argument, then the options are consumed from left
    to right, and the required options are checked last.  Its [error]
    method writes a usage message and exits with status 2; [--help]
    prints the help and exits with status 0.

    An explicit argument that is the separator itself, as in
    [--qty=--], is dropped from the option's arguments: the option
    counts as seen and its attribute is the empty list, with no
    conversion and no check of the choices.  An attribute is therefore
    modelled by what it can hold: a value of the option's type or the
    empty list. *)

(** What an attribute of type [str] holds. *)
Inductive pystr :=
| Str (s : string)
| StrList.

(** What the attribute [qty] holds. *)
Inductive pyfloat :=
| Flt (x : float)
| FltList.

(** What the attribute [price] holds: [None], its default, a float, or
    the empty list.  It is also what [place_order] is given as price. *)
Inductive pyprice :=
| Price (p : option float)
| PriceList.

#[warning="-uniform-inheritance"]
Coercion Price : option >-> pyprice.

Inductive dest := d_symbol | d_side | d_type | d_qty | d_price.

Inductive action :=
| HelpAction
| Store (d : dest).

(** The option strings, in the order the parser registers them. *)
Definition option_string_actions : list (string * action) :=
  [ ("-h", HelpAction); ("--help", HelpAction);
    ("--symbol", Store d_symbol); ("--side", Store d_side);
    ("--type", Store d_type); ("--qty", Store d_qty);
    ("--price", Store d_price) ].

Fixpoint assoc {A} (k : string) (l : list (string * A)) : option A :=
  match l with
  | [] => None
  | (k', a) :: l' => if String.eqb k k' then Some a else assoc k l'
  end.

Definition option_string_of (d : dest) : string :=
  match d with
  | d_symbol => "--symbol"
  | d_side => "--side"
  | d_type => "--type"
  | d_qty => "--qty"
  | d_price => "--price"
  end.

(** How one argument string is read: a plain argument, an option (a
    declared one with its action, or an unknown one) with the explicit
    argument it carries after [=], or an ambiguous abbreviation. *)
Inductive optional :=
| Positional
| Opt (a : option action) (option_string : string) (explicit_arg : option string)
| Ambiguous.

Fixpoint strip_final_newline (s : string) : string :=
  match s with
  | EmptyString => EmptyString
  | String c EmptyString => if Ascii.eqb c "010" then EmptyString else s
  | String c s' => String c (strip_final_newline s')
  end.

Definition nonempty (s : string) : bool :=
  match s with
  | EmptyString => false
  | _ => true
  end.

(** The pattern [^-\d+$|^-\d*\.\d+$] of argparse. *)
Definition negative_number (s : string) : bool :=
  match strip_final_newline s with
  | String "-" r =>
      (nonempty r && all_digits r)
      || match split_once "." r with
         | Some (a, b) => all_digits a && nonempty b && all_digits b
         | None => false
         end
  | _ => false
  end.

(** [_get_option_tuples]: the declared option strings a not exactly
    declared one abbreviates. *)
Definition get_option_tuples (arg_string : string) : list optional :=
  match arg_string with
  | String "-" (String "-" _) =>
      let '(option_prefix, explicit_arg) :=
        match split_once "=" arg_string with
        | Some (p, e) => (p, Some e)
        | None => (arg_string, None)
        end in
      omap (fun '(option_string, a) =>
              if startswith option_string option_prefix
              then Some (Opt (Some a) option_string explicit_arg)
              else None)
           option_string_actions
  | String "-" (String c short_explicit_arg) =>
      let short_option_prefix := String "-" (String c EmptyString) in
      omap (fun '(option_string, a) =>
              if String.eqb option_string short_option_prefix
              then Some (Opt (Some a) option_string (Some short_explicit_arg))
              else if startswith option_string arg_string
              then Some (Opt (Some a) option_string None)
              else None)
           option_string_actions
  | _ => []
  end.

(** [_parse_optional]. *)
Definition parse_optional (arg_string : string) : optional :=
  match arg_string with
  | EmptyString => Positional
  | String c rest =>
      if negb (Ascii.eqb c "-") then Positional
      else
        match assoc arg_string option_string_actions with
        | Some a => Opt (Some a) arg_string None
        | None =>
            if negb (nonempty rest) then Positional
            else
              let abbreviated :=
                match get_option_tuples arg_string with
                | _ :: _ :: _ => Ambiguous
                | [o] => o
                | [] =>
                    if negative_number arg_string then Positional
                    else if contains " " arg_string then Positional
                    else Opt None arg_string None
                end in
              match split_once "=" arg_string with
              | Some (option_string, explicit_arg) =>
                  match assoc option_string option_string_actions with
                  | Some a => Opt (Some a) option_string (Some explicit_arg)
                  | None => abbreviated
                  end
              | None => abbreviated
              end
        end
  end.

(** The class of each argument: a plain argument, the separator [--],
    after which everything is a plain argument, or an option. *)
Inductive arg_class :=
| PlainArg
| DashDash
| OptionArg (a : option action) (option_string : string) (explicit_arg : option string).

(** The first pass: [inl] the usage error of an ambiguous abbreviation,
    [inr] the arguments with their classes. *)
Fixpoint classify (arg_strings : list string)
  : usage_error + list (string * arg_class) :=
  match arg_strings with
  | [] => inr []
  | s :: rest =>
      if String.eqb s "--" then inr ((s, DashDash) :: map (fun a => (a, PlainArg)) rest)
      else
        match parse_optional s with
        | Ambiguous => inl (AmbiguousOption s)
        | Positional =>
            match classify rest with
            | inl err => inl err
            | inr l => inr ((s, PlainArg) :: l)
            end
        | Opt a option_string explicit_arg =>
            match classify rest with
            | inl err => inl err
            | inr l => inr ((s, OptionArg a option_string explicit_arg) :: l)
            end
        end
  end.

(** The attributes the parser has stored so far; [None] is the default
    of an option not seen yet. *)
Record slots := Slots {
  s_symbol : option pystr;
  s_side : option pystr;
  s_type : option pystr;
  s_qty : option pyfloat;
  s_price : pyprice
}.

Definition no_slots : slots := Slots None None None None None.

(** The object [parse_args] returns: the four required attributes and
    the optional price, each as the parser stored it. *)
Record RawNamespace := {
  raw_symbol : pystr;
  raw_side : pystr;
  raw_type : pystr;
  raw_qty : pyfloat;
  raw_price : pyprice
}.

(** The same object when its required attributes hold values of their
    types, as they do unless an explicit argument was the separator. *)
Record Namespace := {
  symbol : string;
  side : string;
  type : string;
  qty : float;
  price : pyprice
}.

Definition raw (args : Namespace) : RawNamespace :=
  {| raw_symbol := Str (symbol args); raw_side := Str (side args);
     raw_type := Str (type args); raw_qty := Flt (qty args);
     raw_price := price args |}.

Inductive parse_result :=
| Accepted (args : RawNamespace)
| HelpExit
| UsageError (err : usage_error).

(** The result of a command line accepted with the attributes [args]. *)
Definition Parsed (args : Namespace) : parse_result := Accepted (raw args).

Fixpoint all_h (s : string) : bool :=
  match s with
  | EmptyString => true
  | String c s' => Ascii.eqb c "h" && all_h s'
  end.

Section Parser.

(** Python's [float(s)] on a string: [None] when it raises [ValueError]. *)
Variable float_of_string : string -> option float.

(** Storing the empty list as the attribute of [d]. *)
Definition store_empty_list (d : dest) (ns : slots) : slots :=
  match d with
  | d_symbol => Slots (Some StrList) (s_side ns) (s_type ns) (s_qty ns) (s_price ns)
  | d_side => Slots (s_symbol ns) (Some StrList) (s_type ns) (s_qty ns) (s_price ns)
  | d_type => Slots (s_symbol ns) (s_side ns) (Some StrList) (s_qty ns) (s_price ns)
  | d_qty => Slots (s_symbol ns) (s_side ns) (s_type ns) (Some FltList) (s_price ns)
  | d_price => Slots (s_symbol ns) (s_side ns) (s_type ns) (s_qty ns) PriceList
  end.

(** One option with its argument string.  The separator is removed from
    the arguments, which leaves none: the empty list is stored as it
    is.  Any other string is converted by the option's [type], checked
    against the [choices] and stored. *)
Definition take_action (d : dest) (arg_string : string) (ns : slots)
  : usage_error + slots :=
  if String.eqb arg_string "--" then inr (store_empty_list d ns)
  else
  match d with
  | d_symbol =>
      inr (Slots (Some (Str arg_string)) (s_side ns) (s_type ns) (s_qty ns) (s_price ns))
  | d_side =>
      if String.eqb arg_string "BUY" || String.eqb arg_string "SELL"
      then inr (Slots (s_symbol ns) (Some (Str arg_string)) (s_type ns) (s_qty ns) (s_price ns))
      else inl (InvalidChoice "--side" arg_string)
  | d_type =>
      if String.eqb arg_string "MARKET" || String.eqb arg_string "LIMIT"
      then inr (Slots (s_symbol ns) (s_side ns) (Some (Str arg_string)) (s_qty ns) (s_price ns))
      else inl (InvalidChoice "--type" arg_string)
  | d_qty =>
      match float_of_string arg_string with
      | Some x => inr (Slots (s_symbol ns) (s_side ns) (s_type ns) (Some (Flt x)) (s_price ns))
      | None => inl (InvalidFloat "--qty" arg_string)
      end
  | d_price =>
      match float_of_string arg_string with
      | Some x => inr (Slots (s_symbol ns) (s_side ns) (s_type ns) (s_qty ns) (Some x))
      | None => inl (InvalidFloat "--price" arg_string)
      end
  end.

(** After the last argument: the required options must have been seen,
    and no argument may be left over. *)
Definition finish (ns : slots) (extras : list string) : parse_result :=
  match s_symbol ns, s_side ns, s_type ns, s_qty ns with
  | Some sy, Some si, Some ty, Some q =>
      match extras with
      | [] => Accepted {| raw_symbol := sy; raw_side := si; raw_type := ty;
                          raw_qty := q; raw_price := s_price ns |}
      | _ => UsageError (UnrecognizedArguments extras)
      end
  | _, _, _, _ => UsageError MissingRequired
  end.

(** The second pass.  A plain argument, the separator or an unknown
    option outside an option's reach is left over.  [-h] acts at once,
    also when it is repeated in one string ([-hh]).  A storing option
    takes its explicit argument, the separator included, or else the
    plain argument that must follow it at once. *)
Fixpoint consume (ns : slots) (extras : list string)
    (l : list (string * arg_class)) : parse_result :=
  match l with
  | [] => finish ns extras
  | (s, PlainArg) :: rest | (s, DashDash) :: rest | (s, OptionArg None _ _) :: rest =>
      consume ns (extras ++ [s]) rest
  | (_, OptionArg (Some HelpAction) _ None) :: _ => HelpExit
  | (_, OptionArg (Some HelpAction) option_string (Some explicit_arg)) :: _ =>
      if String.eqb option_string "-h" && nonempty explicit_arg && all_h explicit_arg
      then HelpExit
      else UsageError (IgnoredExplicitArgument option_string)
  | (_, OptionArg (Some (Store d)) _ (Some explicit_arg)) :: rest =>
      match take_action d explicit_arg ns with
      | inl err => UsageError err
      | inr ns' => consume ns' extras rest
      end
  | (_, OptionArg (Some (Store d)) option_string None) :: rest =>
      match rest with
      | (v, PlainArg) :: rest' =>
          match take_action d v ns with
          | inl err => UsageError err
          | inr ns' => consume ns' extras rest'
          end
      | _ => UsageError (ExpectedOneArgument option_string)
      end
  end.

(** [parser.parse_args()] on [sys.argv[1:]]. *)
Definition parse_args (arg_strings : list string) : parse_result :=
  match classify arg_strings with
  | inl err => UsageError err
  | inr l => consume no_slots [] l
  end.

End Parser.

(** ** The exchange client *)

(** The client object, by what its two calls answer. *)
Record client := {
  futures_ping : outcome unit;
  futures_create_order : params -> outcome response
}.

(** The world outside: the environment after [load_dotenv()], and what
    the constructor [Client(api_key, api_secret, tld, testnet)] answers. *)
Record World := {
  environ : gmap string string;
  Client : string -> string -> string -> bool -> outcome client
}.

(** [os.getenv(name)]. *)
Definition getenv (w : World) (name : string) : option string :=
  environ w !! name.

(** Modelled from the spec: the constants [TIME_IN_FORCE_GTC] and
    [ORDER_TYPE_LIMIT] that [bot.py] imports from [binance.enums], whose
    source is not part of the repository; the spec gives their values as
    GTC and LIMIT. *)
Definition TIME_IN_FORCE_GTC : string := "GTC".
Definition ORDER_TYPE_LIMIT : string := "LIMIT".

(** ** BasicBot *)

(** [BasicBot.__init__]: the object is identified with its client. *)
Definition BasicBot (w : World) (api_key api_secret : string) (testnet : bool)
  : M client :=
  log INFO [Lit "Initializing BasicBot..."] ;;;
  try_except
    (c <~ call (NewClient api_key api_secret "com" testnet)
               (Client w api_key api_secret "com" testnet) ;;
     call FuturesPing (futures_ping c) ;;;
     log INFO [Lit "Binance Client initialized successfully and connected to Testnet."] ;;;
     ret c)
    (fun e => Some (log ERROR [Lit "Error initializing Binance Client: "; Lit (text e)] ;;;
                    raise e)).

(** The dictionary of lines 66 to 72. *)
Definition base_params (symbol side order_type : string) (quantity : float)
  : params :=
  <["timeInForce" := VStr TIME_IN_FORCE_GTC]>
    (<["quantity" := VFloat quantity]>
       (<["type" := VStr order_type]>
          (<["side" := VStr side]>
             (<["symbol" := VStr symbol]> ∅)))).

(** The [try] statement of lines 81 to 101: the call, the report of a
    success, the two handlers. *)
Definition submit (self : client) (p : params) : M (option response) :=
  try_except
    (response <~ call (FuturesCreateOrder p) (futures_create_order self p) ;;
     log INFO [Lit "Order placed successfully. Status: ";
               Lit (str_of_get (response !! "status"))] ;;;
     log DEBUG [Lit "API Response (Success): "; Dict response] ;;;
     print [Lit nl; Lit "Order Placed Successfully:"] ;;;
     print [Lit "   Order ID: "; Lit (str_of_get (response !! "orderId"))] ;;;
     print [Lit "   Status: "; Lit (str_of_get (response !! "status"))] ;;;
     print [Lit "   Type: "; Lit (str_of_get (response !! "type"))] ;;;
     ret (Some response))
    (fun e =>
       match kind e with
       | BinanceAPIException =>
           Some (log ERROR [Lit "Binance API Error (Code "; Lit (pretty (code e));
                            Lit "): "; Lit (message e)] ;;;
                 print [Lit nl; Lit "Order Failed (API Error): "; Lit (message e)] ;;;
                 ret None)
       | BinanceOrderException =>
           Some (log ERROR [Lit "Binance Order Error (Code "; Lit (pretty (code e));
                            Lit "): "; Lit (message e)] ;;;
                 print [Lit nl; Lit " Order Failed (Order Error): "; Lit (message e)] ;;;
                 ret None)
       | OtherException => None
       end).

(** The message of lines 61 to 64; the price is added when it is true
    as a condition, that is neither [None] nor zero nor the empty
    list. *)
Definition attempt (symbol side order_type : string) (quantity : float)
    (price : pyprice) : fstring :=
  [Lit "Attempting order: Side="; Lit side; Lit ", Type="; Lit order_type;
   Lit ", Symbol="; Lit symbol; Lit ", Qty="; Float quantity]
  ++ match price with
     | Price (Some p) => if float_truthy p then [Lit ", Price="; Float p] else []
     | Price None => []
     | PriceList => []
     end.

(** [BasicBot.place_order]; its result is the response, or [None]. *)
Definition place_order (self : client) (symbol side order_type : string)
    (quantity : float) (price : pyprice) : M (option response) :=
  log INFO (attempt symbol side order_type quantity price) ;;;
  let params := base_params symbol side order_type quantity in
  if String.eqb order_type ORDER_TYPE_LIMIT then
    match price with
    | Price None =>
        log ERROR [Lit "LIMIT order requires a 'price' parameter."] ;;;
        print [Lit "Order Failed: LIMIT order requires a target price."] ;;;
        ret None
    | Price (Some p) => submit self (<["price" := VFloat p]> params)
    | PriceList => submit self (<["price" := VList]> params)
    end
  else submit self params.

(** ** The entry point *)

(** The value of an environment variable when it counts as true: set
    and not the empty string. *)
Definition truthy (v : option string) : option string :=
  match v with
  | Some s => if nonempty s then Some s else None
  | None => None
  end.

(** What Python raises when an empty list is compared with [0], and
    when it is asked for its method [upper]. *)
Definition TypeError : exn :=
  {| kind := OtherException; code := 0; message := EmptyString;
     text := "'<=' not supported between instances of 'list' and 'int'" |}.

Definition AttributeError : exn :=
  {| kind := OtherException; code := 0; message := EmptyString;
     text := "'list' object has no attribute 'upper'" |}.

(** [v == s] for an attribute [v] and a string [s]; an empty list is
    equal to no string. *)
Definition str_eqb (v : pystr) (s : string) : bool :=
  match v with
  | Str s' => String.eqb s' s
  | StrList => false
  end.

(** [v.upper()] for an attribute [v]. *)
Definition str_upper (v : pystr) : M string :=
  match v with
  | Str s => ret (upper s)
  | StrList => raise AttributeError
  end.

(** The object [validate_and_parse_args] returns: the parsed arguments,
    whose quantity has been compared with zero and so is a float. *)
Record Validated := {
  v_symbol : pystr;
  v_side : pystr;
  v_type : pystr;
  v_qty : float;
  v_price : pyprice
}.

Definition validated_args (args : Namespace) : Validated :=
  {| v_symbol := Str (symbol args); v_side := Str (side args);
     v_type := Str (type args); v_qty := qty args; v_price := price args |}.

Coercion validated_args : Namespace >-> Validated.

Section Program.

Variable float_of_string : string -> option float.

Definition validate_and_parse_args (argv : list string) : M Validated :=
  match parse_args float_of_string argv with
  | UsageError err => emit (UsageMessage err) ;;; sys_exit 2
  | HelpExit => emit HelpMessage ;;; sys_exit 0
  | Accepted args =>
      match raw_qty args with
      | FltList => raise TypeError
      | Flt quantity =>
          when (le_zero quantity)
               (log ERROR [Lit "Quantity must be greater than zero."] ;;; sys_exit 1) ;;;
          without_price <~
            (if str_eqb (raw_type args) "LIMIT" then
               match raw_price args with
               | Price None => ret true
               | Price (Some p) => ret (le_zero p)
               | PriceList => raise TypeError
               end
             else ret false) ;;
          when without_price
               (log ERROR [Lit "LIMIT orders require a positive --price."] ;;; sys_exit 1) ;;;
          ret {| v_symbol := raw_symbol args; v_side := raw_side args;
                 v_type := raw_type args; v_qty := quantity;
                 v_price := raw_price args |}
      end
  end.

Definition main (w : World) (argv : list string) : M unit :=
  args <~ validate_and_parse_args argv ;;
  match truthy (getenv w "API_KEY"), truthy (getenv w "API_SECRET") with
  | Some API_KEY, Some API_SECRET =>
      try_except
        (bot <~ BasicBot w API_KEY API_SECRET true ;;
         symbol <~ str_upper (v_symbol args) ;;
         side <~ str_upper (v_side args) ;;
         order_type <~ str_upper (v_type args) ;;
         place_order bot symbol side order_type (v_qty args) (v_price args) ;;;
         ret tt)
        (fun e => Some (log CRITICAL [Lit "Main execution failed: "; Lit (text e)] ;;;
                        sys_exit 1))
  | _, _ =>
      log ERROR [Lit "API keys not loaded. Check your .env file."] ;;;
      print [Lit "Error: API_KEY or API_SECRET not found."] ;;;
      sys_exit 1
  end.

End Program.

(** ** Concrete inputs

    A reader of decimal literals, for running the program on concrete
    command lines: [float(s)] for [s] an optional sign, digits and an
    optional fraction, fifteen digits at most, where the quotient of
    the two exactly represented integers is the correctly rounded value
    Python computes.  Every other string is refused; for the strings
    that are no number at all that is what Python does too. *)

Fixpoint Z_of_digits (acc : Z) (s : string) : Z :=
  match s with
  | EmptyString => acc
  | String c s' => Z_of_digits (10 * acc + Z.of_nat (nat_of_ascii c - 48)) s'
  end.

Definition decimal_literal (s : string) : option float :=
  let '(negative, body) :=
    match s with
    | String "-" r => (true, r)
    | String "+" r => (false, r)
    | _ => (false, s)
    end in
  let '(int_part, frac_part) :=
    match split_once "." body with
    | Some (a, b) => (a, b)
    | None => (body, EmptyString)
    end in
  let digits := int_part +:+ frac_part in
  if all_digits digits && nonempty digits && (String.length digits <=? 15)%nat then
    let x := SFdiv 53 1024 (float_of_Z (Z_of_digits 0 digits))
                           (float_of_Z (10 ^ Z.of_nat (String.length frac_part))) in
    Some (if negative then SFopp x else x)
  else None.

(** A client that answers the ping and the order with [r]. *)
Definition filling_client (r : response) : client :=
  {| futures_ping := Returns tt; futures_create_order := fun _ => Returns r |}.

(** A client that answers the ping and raises [e] on every order. *)
Definition rejecting_client (e : exn) : client :=
  {| futures_ping := Returns tt; futures_create_order := fun _ => Raises e |}.

(** A world with both credentials set, whose constructor gives [c]. *)
Definition testnet (c : client) : World :=
  {| environ := <["API_KEY" := "key"]> (<["API_SECRET" := "secret"]> ∅);
     Client := fun _ _ _ _ => Returns c |}.

Definition filled : response :=
  <["orderId" := "12345"]> (<["status" := "FILLED"]> (<["type" := "MARKET"]> ∅)).

Definition recv_window : exn :=
  {| kind := BinanceAPIException; code := -1021;
     message := "Timestamp outside recvWindow";
     text := "APIError(code=-1021): Timestamp outside recvWindow" |}.

Definition margin : exn :=
  {| kind := BinanceOrderException; code := -2019;
     message := "Margin is insufficient.";
     text := "Margin is insufficient." |}.

Definition timed_out : exn :=
  {| kind := OtherException; code := 0; message := EmptyString;
     text := "Read timed out." |}.

(** Command lines. *)
Definition market_buy : list string :=
  ["--symbol"; "btcusdt"; "--side"; "BUY"; "--type"; "MARKET"; "--qty"; "1"].

Definition market_buy_args : Namespace :=
  {| symbol := "btcusdt"; side := "BUY"; type := "MARKET";
     qty := float_of_Z 1; price := None |}.

Definition limit_buy : list string :=
  ["--symbol"; "BTCUSDT"; "--side"; "BUY"; "--type"; "LIMIT";
   "--qty"; "0.01"; "--price"; "50000"].

(** The float [0.01]. *)
Definition hundredth : float := S754_finite false 5764607523034235 (-59).

Definition limit_buy_args : Namespace :=
  {| symbol := "BTCUSDT"; side := "BUY"; type := "LIMIT";
     qty := hundredth; price := Some (float_of_Z 50000) |}.





Definition lower_case_side : list string :=
  ["--symbol"; "btcusdt"; "--side"; "buy"; "--type"; "MARKET"; "--qty"; "1"].


(** A world whose [API_KEY] is set to the empty string. *)
Definition empty_key (c : client) : World :=
  {| environ := <["API_KEY" := EmptyString]> (<["API_SECRET" := "secret"]> ∅);
     Client := fun _ _ _ _ => Returns c |}.

(** ** The vocabulary of the statements *)

(** The choices hold of what the parser has stored. *)
Definition choices_stored (ns : slots) : Prop :=
  (forall s, s_side ns = Some (Str s) -> s = "BUY" \/ s = "SELL") /\
  (forall s, s_type ns = Some (Str s) -> s = "MARKET" \/ s = "LIMIT").

(** The dictionary literal of a LIMIT order, as the spec writes it. *)
Definition limit_order_params (symbol side : string) (q p : float) : params :=
  list_to_map
    [ ("symbol", VStr symbol); ("side", VStr side); ("type", VStr "LIMIT");
      ("quantity", VFloat q); ("timeInForce", VStr "GTC"); ("price", VFloat p) ].


(** The order main asks for, given the parsed arguments. *)
Definition order_of (self : client) (args : Namespace) : M (option response) :=
  place_order self (upper (symbol args)) (upper (side args)) (upper (type args))
              (qty args) (price args).

(** [BasicBot.__init__] when the constructor and the ping succeed. *)
Definition connected (api_key api_secret : string) : list event :=
  [ Log INFO [Lit "Initializing BasicBot..."];
    NewClient api_key api_secret "com" true;
    FuturesPing;
    Log INFO [Lit "Binance Client initialized successfully and connected to Testnet."] ].

(** A command line in plain form: declared options, each followed by
    its argument as the next string, in any order and number. *)
Fixpoint plain_argv (l : list (dest * string)) : list string :=
  match l with
  | [] => []
  | (d, v) :: l' => [option_string_of d; v] ++ plain_argv l'
  end.

(** The classes of its strings. *)
Fixpoint plain_classes (l : list (dest * string)) : list (string * arg_class) :=
  match l with
  | [] => []
  | (d, v) :: l' =>
      [ (option_string_of d, OptionArg (Some (Store d)) (option_string_of d) None); (v, PlainArg) ]
      ++ plain_classes l'
  end.

(** Storing a sequence of options, up to the first that is refused. *)
Fixpoint store_all (float_of_string : string -> option float)
    (l : list (dest * string)) (ns : slots) : usage_error + slots :=
  match l with
  | [] => inr ns
  | (d, v) :: l' =>
      match take_action float_of_string d v ns with
      | inl err => inl err
      | inr ns' => store_all float_of_string l' ns'
      end
  end.

(** The world with the variable [name] absent. *)
Definition unsetenv (name : string) (w : World) : World :=
  {| environ := delete name (environ w); Client := Client w |}.


(** ** The logging configuration

    [setup_logging] configures the logger named TradingBot: its level,
    a handler that appends to the file [trading_log.log] and a handler
    that writes to standard output.  A logger is modelled by its level
    and its handlers, a record passing the logger when its level is at
    least the logger's, and a handler when it is at least the
    handler's, as the logging module decides it. *)

(** The numeric value of a level. *)
Definition levelno (l : level) : Z :=
  match l with
  | DEBUG => 10
  | INFO => 20
  | ERROR => 40
  | CRITICAL => 50
  end.

Inductive stream :=
| LogFile (filename : string)
| StdoutStream.

Definition stream_eqb (a b : stream) : bool :=
  match a, b with
  | LogFile f, LogFile g => String.eqb f g
  | StdoutStream, StdoutStream => true
  | _, _ => false
  end.

Record handler := {
  h_stream : stream;
  h_level : level;
  h_format : string
}.

(** A logger; the level [None] is [NOTSET]. *)
Record logger := {
  l_name : string;
  l_level : option level;
  l_handlers : list handler
}.

(** What [logging.getLogger(name)] gives when the name is new. *)
Definition new_logger (name : string) : logger :=
  {| l_name := name; l_level := None; l_handlers := [] |}.

Definition log_format : string :=
  "%(asctime)s - %(name)s - %(levelname)s - %(message)s".

(** [setup_logging], on the state [lg] in which it finds the logger
    [logging.getLogger('TradingBot')].  The result is the logger it
    returns, with the files opened for appending on the way: the file
    handler is constructed before the test on the handlers. *)
Definition setup_logging (lg : logger) : logger * list string :=
  let file_handler :=
    {| h_stream := LogFile "trading_log.log"; h_level := DEBUG; h_format := log_format |} in
  let console_handler :=
    {| h_stream := StdoutStream; h_level := INFO; h_format := log_format |} in
  ({| l_name := l_name lg;
      l_level := Some DEBUG;
      l_handlers := match l_handlers lg with
                    | [] => [file_handler; console_handler]
                    | hs => hs
                    end |},
   ["trading_log.log"]).

(** The module's [LOGGER], set up when the module is loaded. *)
Definition LOGGER : logger := fst (setup_logging (new_logger "TradingBot")).

(** The level a logger applies: its own, or the root's [WARNING] when
    it has none. *)
Definition effective_level (lg : logger) : Z :=
  match l_level lg with
  | Some l => levelno l
  | None => 30
  end.

(** The streams a record of level [lvl] is written to, one per handler
    that takes it. *)
Definition receivers (lg : logger) (lvl : level) : list stream :=
  if (effective_level lg <=? levelno lvl)%Z
  then map h_stream
           (List.filter (fun h => (levelno (h_level h) <=? levelno lvl)%Z) (l_handlers lg))
  else [].

(** What ends up on a stream. *)
Inductive line :=
| Printed (msg : fstring)
| Logged (lvl : level) (msg : fstring)
| HelpText.

Definition written_to (lg : logger) (s : stream) (ev : event) : list line :=
  match ev with
  | Stdout m => if stream_eqb s StdoutStream then [Printed m] else []
  | HelpMessage => if stream_eqb s StdoutStream then [HelpText] else []
  | Log lvl m =>
      map (fun _ => Logged lvl m) (List.filter (stream_eqb s) (receivers lg lvl))
  | _ => []
  end.

Definition output (lg : logger) (s : stream) (t : list event) : list line :=
  flat_map (written_to lg s) t.

(** The records of a trace, whatever their level. *)
Definition records (t : list event) : list line :=
  flat_map (fun ev => match ev with Log lvl m => [Logged lvl m] | _ => [] end) t.

(** Whether a formatted string holds the text of a whole response. *)
Definition shows_response (m : fstring) : bool :=
  existsb (fun p => match p with Dict _ => true | _ => false end) m.

Definition line_shows_response (l : line) : bool :=
  match l with
  | Printed m | Logged _ m => shows_response m
  | HelpText => false
  end.

(** An event that puts no whole response on standard output. *)
Definition quiet (ev : event) : bool :=
  match ev with
  | Stdout m => negb (shows_response m)
  | Log DEBUG _ => true
  | Log _ m => negb (shows_response m)
  | _ => true
  end.

(** ** More vocabulary *)

(** What [print] wrote, in order. *)
Definition printed (t : list event) : list fstring :=
  flat_map (fun ev => match ev with Stdout m => [m] | _ => [] end) t.

(** The dictionary of an order that is not a LIMIT order. *)
Definition plain_order_params (symbol side order_type : string) (q : float) : params :=
  list_to_map
    [ ("symbol", VStr symbol); ("side", VStr side); ("type", VStr order_type);
      ("quantity", VFloat q); ("timeInForce", VStr "GTC") ].

(** The parameters [place_order] submits when its defensive check lets
    the order through. *)
Definition wire_params (symbol side order_type : string) (quantity : float)
    (price : pyprice) : params :=
  if String.eqb order_type ORDER_TYPE_LIMIT then
    match price with
    | Price (Some p) => <["price" := VFloat p]> (base_params symbol side order_type quantity)
    | Price None => base_params symbol side order_type quantity
    | PriceList => <["price" := VList]> (base_params symbol side order_type quantity)
    end
  else base_params symbol side order_type quantity.

(** Every run of main, by the place where it ends. *)
Inductive ending (float_of_string : string -> option float)
    (w : World) (argv : list string) : M unit -> Prop :=
| refused_by_parser err :
    parse_args float_of_string argv = UsageError err ->
    ending float_of_string w argv ([UsageMessage err], Exit 2)
| help_printed :
    parse_args float_of_string argv = HelpExit ->
    ending float_of_string w argv ([HelpMessage], Exit 0)
| refused_by_validation args t :
    parse_args float_of_string argv = Accepted args ->
    validate_and_parse_args float_of_string argv = (t, Exit 1) ->
    (exists msg, t = [Log ERROR msg]) ->
    ending float_of_string w argv (t, Exit 1)
| validation_raised args :
    parse_args float_of_string argv = Accepted args ->
    raw_qty args = FltList \/ raw_type args = Str "LIMIT" /\ raw_price args = PriceList ->
    validate_and_parse_args float_of_string argv = ([], Raise TypeError) ->
    ending float_of_string w argv ([], Raise TypeError)
| without_credentials args :
    validate_and_parse_args float_of_string argv = ([], Val args) ->
    truthy (getenv w "API_KEY") = None \/ truthy (getenv w "API_SECRET") = None ->
    ending float_of_string w argv
      ([ Log ERROR [Lit "API keys not loaded. Check your .env file."];
         Stdout [Lit "Error: API_KEY or API_SECRET not found."] ], Exit 1)
| not_connected args k s tb e :
    validate_and_parse_args float_of_string argv = ([], Val args) ->
    truthy (getenv w "API_KEY") = Some k ->
    truthy (getenv w "API_SECRET") = Some s ->
    BasicBot w k s true = (tb, Raise e) ->
    ending float_of_string w argv
      (tb ++ [Log CRITICAL [Lit "Main execution failed: "; Lit (text e)]], Exit 1)
| no_upper args k s self :
    validate_and_parse_args float_of_string argv = ([], Val args) ->
    truthy (getenv w "API_KEY") = Some k ->
    truthy (getenv w "API_SECRET") = Some s ->
    Client w k s "com" true = Returns self ->
    futures_ping self = Returns tt ->
    v_symbol args = StrList \/ v_side args = StrList \/ v_type args = StrList ->
    ending float_of_string w argv
      (connected k s
         ++ [Log CRITICAL [Lit "Main execution failed: "; Lit (text AttributeError)]],
       Exit 1)
| order_returned (args : Namespace) k s self r :
    validate_and_parse_args float_of_string argv = ([], Val args) ->
    truthy (getenv w "API_KEY") = Some k ->
    truthy (getenv w "API_SECRET") = Some s ->
    Client w k s "com" true = Returns self ->
    futures_ping self = Returns tt ->
    snd (order_of self args) = Val r ->
    ending float_of_string w argv (connected k s ++ fst (order_of self args), Val tt)
| order_raised (args : Namespace) k s self e :
    validate_and_parse_args float_of_string argv = ([], Val args) ->
    truthy (getenv w "API_KEY") = Some k ->
    truthy (getenv w "API_SECRET") = Some s ->
    Client w k s "com" true = Returns self ->
    futures_ping self = Returns tt ->
    snd (order_of self args) = Raise e ->
    ending float_of_string w argv
      (connected k s ++ fst (order_of self args)
         ++ [Log CRITICAL [Lit "Main execution failed: "; Lit (text e)]], Exit 1).

(** A world with both credentials set whose client constructor raises. *)
Definition unreachable (e : exn) : World :=
  {| environ := <["API_KEY" := "key"]> (<["API_SECRET" := "secret"]> ∅);
     Client := fun _ _ _ _ => Raises e |}.

(** A world with an empty environment. *)
Definition no_environment (c : client) : World :=
  {| environ := ∅; Client := fun _ _ _ _ => Returns c |}.


Definition nan_qty : list string :=
  ["--symbol"; "BTCUSDT"; "--side"; "BUY"; "--type"; "MARKET"; "--qty"; "nan"].

Definition nan_qty_args : Namespace :=
  {| symbol := "BTCUSDT"; side := "BUY"; type := "MARKET";
     qty := S754_nan; price := None |}.



(** A reader that knows [nan] and [inf] beside the decimal literals. *)
Definition float_literal (s : string) : option float :=
  if String.eqb s "nan" then Some S754_nan
  else if String.eqb s "inf" then Some (S754_infinity false)
  else decimal_literal s.

(** A reader that also knows the exponent form of an integer: an
    optional sign, digits, [e] and at most three digits, as in [-1e5].
    The value is the float nearest to the integer written. *)
Definition exponent_literal (s : string) : option float :=
  match split_once "e" s with
  | Some (m, e) =>
      let '(negative, body) :=
        match m with
        | String "-" r => (true, r)
        | String "+" r => (false, r)
        | _ => (false, m)
        end in
      if all_digits body && nonempty body && all_digits e && nonempty e
         && (String.length e <=? 3)%nat
      then
        let x := float_of_Z (Z_of_digits 0 body * 10 ^ Z_of_digits 0 e) in
        Some (if negative then SFopp x else x)
      else None
  | None => float_literal s
  end.





(** The separator as the explicit argument of an option. *)
Definition separator_qty : list string :=
  ["--symbol"; "BTCUSDT"; "--side"; "BUY"; "--type"; "MARKET"; "--qty=--"].

Definition separator_price : list string :=
  ["--symbol"; "BTCUSDT"; "--side"; "BUY"; "--type"; "MARKET"; "--qty"; "1";
   "--price=--"].

Definition separator_symbol : list string :=
  ["--symbol=--"; "--side"; "BUY"; "--type"; "MARKET"; "--qty"; "1"].


(** * Properties *)

(** ** The trace monad *)

Lemma bind_val {A B} t (a : A) (f : A -> M B) :
  bind (t, Val a) f = (t ++ fst (f a), snd (f a)).
Proof. unfold bind. destruct (f a); reflexivity. Qed.

Lemma bind_raise {A B} t e (f : A -> M B) : bind (t, Raise e) f = (t, Raise e).
Proof. reflexivity. Qed.

Lemma bind_exit {A B} t n (f : A -> M B) : bind (t, Exit n) f = (t, Exit n).
Proof. reflexivity. Qed.

Lemma order_calls_app t1 t2 : order_calls (t1 ++ t2) = order_calls t1 ++ order_calls t2.
Proof. apply List.filter_app. Qed.

Lemma exchange_calls_app t1 t2 :
  exchange_calls (t1 ++ t2) = exchange_calls t1 ++ exchange_calls t2.
Proof. apply List.filter_app. Qed.

(** ** The submission *)

(** What [submit] does by the answer of the exchange. *)
Lemma submit_returns self p r :
  futures_create_order self p = Returns r ->
  snd (submit self p) = Val (Some r) /\
  order_calls (trace (submit self p)) = [FuturesCreateOrder p].
Proof.
  intros H. unfold submit, call. cbn. rewrite H. cbn. split; reflexivity.
Qed.

Lemma submit_raises self p e :
  futures_create_order self p = Raises e ->
  snd (submit self p) =
    match kind e with
    | OtherException => Raise e
    | _ => Val None
    end /\
  order_calls (trace (submit self p)) = [FuturesCreateOrder p].
Proof.
  intros H. unfold submit, call. cbn. rewrite H. cbn.
  destruct (kind e); cbn; split; reflexivity.
Qed.

(** Whatever the exchange answers, [submit] issues the one call. *)
Lemma submit_calls self p :
  order_calls (trace (submit self p)) = [FuturesCreateOrder p].
Proof.
  destruct (futures_create_order self p) as [r|e] eqn:H.
  - apply (submit_returns _ _ _ H).
  - apply (submit_raises _ _ _ H).
Qed.

(** The order [place_order] submits when the defensive check lets it
    through. *)
Lemma place_order_calls self symbol side order_type quantity price :
  order_calls (trace (place_order self symbol side order_type quantity price)) =
    if String.eqb order_type ORDER_TYPE_LIMIT then
      match price with
      | Price (Some p) =>
          [FuturesCreateOrder
             (<["price" := VFloat p]> (base_params symbol side order_type quantity))]
      | Price None => []
      | PriceList =>
          [FuturesCreateOrder
             (<["price" := VList]> (base_params symbol side order_type quantity))]
      end
    else [FuturesCreateOrder (base_params symbol side order_type quantity)].
Proof.
  unfold place_order, log. unfold emit at 1. rewrite bind_val.
  unfold trace. cbn [fst]. rewrite order_calls_app. cbn [order_calls List.filter is_order_call app].
  destruct (String.eqb order_type ORDER_TYPE_LIMIT).
  - destruct price as [[p|]|]; [apply submit_calls | reflexivity | apply submit_calls].
  - apply submit_calls.
Qed.

Lemma base_params_lookup symbol side order_type quantity :
  let ps := base_params symbol side order_type quantity in
  ps !! "symbol" = Some (VStr symbol) /\
  ps !! "side" = Some (VStr side) /\
  ps !! "type" = Some (VStr order_type) /\
  ps !! "quantity" = Some (VFloat quantity) /\
  ps !! "timeInForce" = Some (VStr TIME_IN_FORCE_GTC) /\
  ps !! "price" = None.
Proof. repeat split; reflexivity. Qed.

(** C8. Called with order type LIMIT and no price, [place_order] logs
    an error, prints a failure message and returns [None]; the trace
    holds no order-creation call. *)
Theorem place_order_limit_without_price self symbol side quantity :
  place_order self symbol side ORDER_TYPE_LIMIT quantity None =
    ([ Log INFO [Lit "Attempting order: Side="; Lit side; Lit ", Type=";
                 Lit ORDER_TYPE_LIMIT; Lit ", Symbol="; Lit symbol;
                 Lit ", Qty="; Float quantity];
       Log ERROR [Lit "LIMIT order requires a 'price' parameter."];
       Stdout [Lit "Order Failed: LIMIT order requires a target price."] ],
     Val None) /\
  order_calls (trace (place_order self symbol side ORDER_TYPE_LIMIT quantity None)) = [].
Proof. split; reflexivity. Qed.

(** C3. For order type MARKET the price supplied, whatever it is, is
    left out: the one order-creation call carries no [price] field. *)
Theorem market_order_has_no_price self symbol side quantity price :
  exists ps,
    order_calls (trace (place_order self symbol side "MARKET" quantity price))
      = [FuturesCreateOrder ps] /\
    ps !! "price" = None.
Proof.
  exists (base_params symbol side "MARKET" quantity). split.
  - rewrite place_order_calls. reflexivity.
  - apply base_params_lookup.
Qed.

(** C10. Called with order type LIMIT and a price [p <= 0] that is not
    [None], [place_order] does not stop at its defensive check: the
    order-creation call is issued and carries [price: p]. *)
Theorem limit_order_nonpositive_price_is_submitted self symbol side quantity p :
  le_zero p = true ->
  let run := place_order self symbol side ORDER_TYPE_LIMIT quantity (Some p) in
  exists ps,
    order_calls (trace run) = [FuturesCreateOrder ps] /\
    ps !! "price" = Some (VFloat p) /\
    ~ In (Log ERROR [Lit "LIMIT order requires a 'price' parameter."]) (trace run).
Proof.
  intros _ run.
  exists (<["price" := VFloat p]> (base_params symbol side ORDER_TYPE_LIMIT quantity)).
  split; [|split].
  - unfold run. rewrite place_order_calls. reflexivity.
  - apply lookup_insert_eq.
  - unfold run, place_order, submit, call. cbn.
    destruct (futures_create_order self _) as [r|e]; cbn.
    + intros H. repeat (destruct H as [H|H]; [discriminate H|]). exact H.
    + destruct (kind e); cbn; intros H;
        repeat (destruct H as [H|H]; [discriminate H|]); exact H.
Qed.

(** ** The parser *)

Section ParserFacts.

Variable float_of_string : string -> option float.

Lemma choices_stored_no_slots : choices_stored no_slots.
Proof. split; intros s H; discriminate H. Qed.

Lemma eqb_or_eq s a b :
  String.eqb s a || String.eqb s b = true -> s = a \/ s = b.
Proof.
  intros H. apply orb_true_iff in H as [H|H]; apply String.eqb_eq in H; auto.
Qed.

Lemma store_empty_list_choices d ns :
  choices_stored ns -> choices_stored (store_empty_list d ns).
Proof.
  intros [Hs Ht]. destruct d; split; cbn; auto; intros s H; discriminate H.
Qed.

Lemma take_action_choices d v ns ns' :
  take_action float_of_string d v ns = inr ns' ->
  choices_stored ns -> choices_stored ns'.
Proof.
  unfold take_action. destruct (String.eqb v "--").
  { intros [= <-]. apply store_empty_list_choices. }
  intros H [Hs Ht]. destruct d; cbn in H.
  - inversion H; subst. split; cbn; auto.
  - destruct (String.eqb v "BUY" || String.eqb v "SELL") eqn:E; inversion H; subst.
    split; cbn; auto. intros s [= <-]. apply eqb_or_eq, E.
  - destruct (String.eqb v "MARKET" || String.eqb v "LIMIT") eqn:E; inversion H; subst.
    split; cbn; auto. intros s [= <-]. apply eqb_or_eq, E.
  - destruct (float_of_string v); inversion H; subst. split; cbn; auto.
  - destruct (float_of_string v); inversion H; subst. split; cbn; auto.
Qed.

Lemma finish_choices ns extras args :
  finish ns extras = Parsed args ->
  choices_stored ns ->
  (side args = "BUY" \/ side args = "SELL") /\
  (type args = "MARKET" \/ type args = "LIMIT").
Proof.
  unfold finish, Parsed, raw. intros H [Hs Ht].
  destruct (s_symbol ns), (s_side ns) as [si|], (s_type ns) as [ty|], (s_qty ns);
    try discriminate H.
  destruct extras; [|discriminate H]. inversion H; subst; cbn. auto.
Qed.

Ltac take_step IH :=
  match goal with
  | H : match take_action _ ?d ?v ?ns with _ => _ end = Parsed _ |- _ =>
      let E := fresh "E" in
      destruct (take_action float_of_string d v ns) eqn:E; [discriminate H|];
      eapply IH; [| eapply take_action_choices; eassumption | exact H];
      cbn in *; lia
  end.

(** A command line the parser accepts has a side and a type among the
    declared choices. *)
Lemma consume_choices n : forall l ns extras args,
  length l <= n ->
  choices_stored ns ->
  consume float_of_string ns extras l = Parsed args ->
  (side args = "BUY" \/ side args = "SELL") /\
  (type args = "MARKET" \/ type args = "LIMIT").
Proof.
  induction n as [|n IH]; intros l ns extras args Hlen Hok H.
  - destruct l; [|cbn in Hlen; lia]. eapply finish_choices; eassumption.
  - destruct l as [|[s c] rest]; [eapply finish_choices; eassumption|].
    cbn in Hlen. cbn in H.
    destruct c as [| |[[|d]|] os [e|]];
      try (eapply IH; [| eassumption | exact H]; lia);
      try discriminate H.
    + destruct (_ && _); discriminate H.
    + take_step IH.
    + destruct rest as [|[v [| |a os' e']] rest']; try discriminate H.
      take_step IH.
Qed.

Lemma parse_args_choices argv args :
  parse_args float_of_string argv = Parsed args ->
  (side args = "BUY" \/ side args = "SELL") /\
  (type args = "MARKET" \/ type args = "LIMIT").
Proof.
  unfold parse_args. destruct (classify argv) as [err|l]; [discriminate|].
  intros H. eapply consume_choices; [reflexivity | apply choices_stored_no_slots | exact H].
Qed.

(** [validate_and_parse_args] by its outcomes. *)
Lemma validate_unfold argv :
  validate_and_parse_args float_of_string argv =
    match parse_args float_of_string argv with
    | UsageError err => ([UsageMessage err], Exit 2)
    | HelpExit => ([HelpMessage], Exit 0)
    | Accepted a =>
        match raw_qty a with
        | FltList => ([], Raise TypeError)
        | Flt q =>
            if le_zero q
            then ([Log ERROR [Lit "Quantity must be greater than zero."]], Exit 1)
            else
              let accepted : M Validated :=
                ([], Val {| v_symbol := raw_symbol a; v_side := raw_side a;
                            v_type := raw_type a; v_qty := q; v_price := raw_price a |}) in
              let refused : M Validated :=
                ([Log ERROR [Lit "LIMIT orders require a positive --price."]], Exit 1) in
              if str_eqb (raw_type a) "LIMIT" then
                match raw_price a with
                | Price None => refused
                | Price (Some p) => if le_zero p then refused else accepted
                | PriceList => ([], Raise TypeError)
                end
              else accepted
        end
    end.
Proof.
  unfold validate_and_parse_args.
  destruct (parse_args float_of_string argv) as [a| |err]; try reflexivity.
  destruct (raw_qty a) as [q|]; [|reflexivity].
  unfold when. destruct (le_zero q); [reflexivity|].
  destruct (str_eqb (raw_type a) "LIMIT"); [|reflexivity].
  destruct (raw_price a) as [[p|]|]; try reflexivity.
  cbn. destruct (le_zero p); reflexivity.
Qed.

(** [validate_and_parse_args] on arguments whose attributes hold values
    of their types. *)
Lemma validate_parsed argv args :
  parse_args float_of_string argv = Parsed args ->
  validate_and_parse_args float_of_string argv =
    if le_zero (qty args)
    then ([Log ERROR [Lit "Quantity must be greater than zero."]], Exit 1)
    else
      let refused : M Validated :=
        ([Log ERROR [Lit "LIMIT orders require a positive --price."]], Exit 1) in
      if String.eqb (type args) "LIMIT" then
        match price args with
        | Price None => refused
        | Price (Some p) => if le_zero p then refused else ([], Val args)
        | PriceList => ([], Raise TypeError)
        end
      else ([], Val args).
Proof. intros H. rewrite validate_unfold, H. reflexivity. Qed.

(** What [validate_and_parse_args] returns, it returns without a record. *)
Lemma validated_quietly argv t (args : Validated) :
  validate_and_parse_args float_of_string argv = (t, Val args) -> t = [].
Proof.
  rewrite validate_unfold. cbv zeta.
  destruct (parse_args float_of_string argv) as [a| |err]; try discriminate.
  destruct (raw_qty a) as [q|]; [|discriminate].
  destruct (le_zero q); [discriminate|].
  destruct (str_eqb (raw_type a) "LIMIT"); [|intros [= <- _]; reflexivity].
  destruct (raw_price a) as [[p|]|]; try discriminate.
  destruct (le_zero p); [discriminate|]. intros [= <- _]. reflexivity.
Qed.

(** What [validate_and_parse_args] lets through. *)
Lemma validated argv t (args : Namespace) :
  validate_and_parse_args float_of_string argv = (t, Val args) ->
  t = [] /\
  parse_args float_of_string argv = Parsed args /\
  le_zero (qty args) = false /\
  (type args = "LIMIT" -> exists p, price args = Some p /\ le_zero p = false).
Proof.
  rewrite validate_unfold. cbv zeta.
  destruct (parse_args float_of_string argv) as [[sy si ty q pr]| |err]; try discriminate.
  cbn [raw_symbol raw_side raw_type raw_qty raw_price].
  destruct q as [q|]; [|discriminate].
  destruct (le_zero q) eqn:Hq; [discriminate|].
  destruct args as [asy asi aty aq apr]. unfold validated_args. cbn [symbol side type qty price].
  destruct (str_eqb ty "LIMIT") eqn:Hty.
  - destruct pr as [[p|]|]; try discriminate.
    destruct (le_zero p) eqn:Hle; [discriminate|].
    intros [= <- -> -> -> -> <-]. repeat split; auto. intros _. eauto.
  - intros [= <- -> -> -> -> <-]. repeat split; auto.
    intros ->. discriminate Hty.
Qed.

End ParserFacts.

(** ** The program *)

Lemma bind_ret_nil {A B} (a : A) (f : A -> M B) : bind ([], Val a) f = f a.
Proof. unfold bind. destruct (f a); reflexivity. Qed.

Lemma upper_choice s :
  s = "BUY" \/ s = "SELL" \/ s = "MARKET" \/ s = "LIMIT" -> upper s = s.
Proof. intros [->|[->|[->| ->]]]; reflexivity. Qed.

Lemma limit_params_eq symbol side q p :
  <["price" := VFloat p]> (base_params symbol side "LIMIT" q)
  = limit_order_params symbol side q p.
Proof. reflexivity. Qed.

Section ProgramFacts.

Variable float_of_string : string -> option float.

Local Abbreviation validate := (validate_and_parse_args float_of_string).
Local Abbreviation run := (main float_of_string).

Lemma validated_type argv t (args : Namespace) :
  validate argv = (t, Val args) ->
  upper (type args) = type args /\ upper (side args) = side args /\
  (type args = "MARKET" \/ type args = "LIMIT").
Proof.
  intros H. apply validated in H as (_ & H & _).
  apply parse_args_choices in H as [Hs Ht].
  repeat split; [apply upper_choice | apply upper_choice | ]; tauto.
Qed.

(** C2. For a validated request the order submitted always carries
    [timeInForce: GTC], for MARKET as for LIMIT; for a validated LIMIT
    request with price [p] and quantity [q] it is exactly the dictionary
    with the six fields symbol, side, type LIMIT, quantity [q],
    timeInForce GTC and price [p]. *)
Theorem validated_request_wire_params argv t (args : Namespace) self :
  validate argv = (t, Val args) ->
  exists ps,
    order_calls (trace (order_of self args)) = [FuturesCreateOrder ps] /\
    ps !! "timeInForce" = Some (VStr "GTC") /\
    (type args = "LIMIT" ->
     exists p, price args = Some p /\
       ps = limit_order_params (upper (symbol args)) (upper (side args)) (qty args) p).
Proof.
  intros H. pose proof (validated_type _ _ _ H) as (Hty & _ & Hcases).
  apply validated in H as (_ & _ & _ & Hprice).
  unfold order_of. rewrite place_order_calls, Hty.
  destruct Hcases as [E|E]; rewrite E.
  - eexists. split; [reflexivity|]. split; [reflexivity|]. discriminate.
  - destruct (Hprice E) as (p & Hp & _). rewrite Hp. cbn.
    eexists. split; [reflexivity|]. split; [reflexivity|].
    intros _. exists p. split; [reflexivity|]. apply limit_params_eq.
Qed.

(** [BasicBot.__init__] when the constructor and the ping succeed. *)
Lemma BasicBot_connected w k s self :
  Client w k s "com" true = Returns self ->
  futures_ping self = Returns tt ->
  BasicBot w k s true = (connected k s, Val self).
Proof.
  intros Hc Hp. unfold BasicBot, call. cbn. rewrite Hc. cbn. rewrite Hp. reflexivity.
Qed.

(** The run of main once the arguments are validated, the credentials
    are set and the client is connected: by the end of [place_order]. *)
Lemma main_connected w argv (args : Namespace) k s self :
  validate argv = ([], Val args) ->
  truthy (getenv w "API_KEY") = Some k ->
  truthy (getenv w "API_SECRET") = Some s ->
  Client w k s "com" true = Returns self ->
  futures_ping self = Returns tt ->
  run w argv =
    match snd (order_of self args) with
    | Val _ => (connected k s ++ fst (order_of self args), Val tt)
    | Raise e =>
        (connected k s ++ fst (order_of self args)
           ++ [Log CRITICAL [Lit "Main execution failed: "; Lit (text e)]],
         Exit 1)
    | Exit n => (connected k s ++ fst (order_of self args), Exit n)
    end.
Proof.
  intros Hv Hk Hs Hc Hp. unfold main. rewrite Hv, bind_ret_nil, Hk, Hs.
  rewrite (BasicBot_connected _ _ _ _ Hc Hp), bind_val.
  unfold validated_args, str_upper. cbn [v_symbol v_side v_type v_qty v_price].
  unfold ret. rewrite !bind_ret_nil. fold (order_of self args).
  destruct (order_of self args) as [tp [r|e|n]]; cbn; rewrite ?app_nil_r, <- ?app_assoc;
    reflexivity.
Qed.

(** What validation returns has strings as symbol, side and type, or
    an empty list as one of them. *)
Lemma validated_shape (v : Validated) :
  (exists args : Namespace, v = args) \/
  v_symbol v = StrList \/ v_side v = StrList \/ v_type v = StrList.
Proof.
  destruct v as [[sy|] [si|] [ty|] q pr]; cbn; auto.
  left. exists {| symbol := sy; side := si; type := ty; qty := q; price := pr |}.
  reflexivity.
Qed.

(** The run of main once the client is connected, when the symbol, the
    side or the type is an empty list: upper-casing it raises, inside
    the [try] of main. *)
Lemma main_no_upper w argv (args : Validated) k s self :
  validate argv = ([], Val args) ->
  truthy (getenv w "API_KEY") = Some k ->
  truthy (getenv w "API_SECRET") = Some s ->
  Client w k s "com" true = Returns self ->
  futures_ping self = Returns tt ->
  v_symbol args = StrList \/ v_side args = StrList \/ v_type args = StrList ->
  run w argv =
    (connected k s ++ [Log CRITICAL [Lit "Main execution failed: "; Lit (text AttributeError)]],
     Exit 1).
Proof.
  intros Hv Hk Hs Hc Hp Hl. unfold main. rewrite Hv, bind_ret_nil, Hk, Hs.
  rewrite (BasicBot_connected _ _ _ _ Hc Hp), bind_val.
  destruct args as [[sy|] [si|] [ty|] q pr]; cbn [v_symbol v_side v_type] in Hl;
    try (destruct Hl as [H|[H|H]]; discriminate H); reflexivity.
Qed.





(** Validation performs no exchange call. *)
Lemma validate_no_exchange_call argv :
  exchange_calls (trace (validate argv)) = [] /\
  order_calls (trace (validate argv)) = [].
Proof.
  rewrite validate_unfold. cbv zeta.
  destruct (parse_args float_of_string argv) as [a| |err]; try (split; reflexivity).
  destruct (raw_qty a) as [q|]; [|split; reflexivity].
  destruct (le_zero q); [split; reflexivity|].
  destruct (str_eqb (raw_type a) "LIMIT"); [|split; reflexivity].
  destruct (raw_price a) as [[p|]|]; try (split; reflexivity).
  destruct (le_zero p); split; reflexivity.
Qed.

(** The run of main when a credential is not true as a condition. *)
Lemma missing_credentials_run w argv :
  truthy (getenv w "API_KEY") = None \/ truthy (getenv w "API_SECRET") = None ->
  run w argv =
    bind (validate argv)
         (fun _ => ([ Log ERROR [Lit "API keys not loaded. Check your .env file."];
                      Stdout [Lit "Error: API_KEY or API_SECRET not found."] ],
                    Exit 1)).
Proof.
  intros H. unfold main. f_equal.
  destruct H as [-> | ->]; [reflexivity|].
  destruct (truthy (getenv w "API_KEY")); reflexivity.
Qed.

Lemma truthy_unsetenv_other name name' w :
  name <> name' -> truthy (getenv (unsetenv name w) name') = truthy (getenv w name').
Proof. intros H. unfold getenv, unsetenv. cbn. rewrite lookup_delete_ne; auto. Qed.

Lemma truthy_unsetenv name w : truthy (getenv (unsetenv name w) name) = None.
Proof. unfold getenv, unsetenv. cbn. rewrite lookup_delete_eq. reflexivity. Qed.

(** C9. A credential that is set to the empty string is treated as an
    absent one: the run is the run without the variable; after a
    successful validation it logs the error, prints the message for the
    user and exits with status 1; no client is constructed and no call
    reaches the exchange. *)
Theorem empty_credential_is_absent w argv name :
  name = "API_KEY" \/ name = "API_SECRET" ->
  getenv w name = Some EmptyString ->
  run w argv = run (unsetenv name w) argv /\
  (forall t args, validate argv = (t, Val args) ->
     run w argv =
       ([ Log ERROR [Lit "API keys not loaded. Check your .env file."];
          Stdout [Lit "Error: API_KEY or API_SECRET not found."] ],
        Exit 1) /\
     exit_status (run w argv) = 1%Z) /\
  exchange_calls (trace (run w argv)) = [].
Proof.
  intros Hname Hempty.
  assert (Hw : truthy (getenv w "API_KEY") = None \/ truthy (getenv w "API_SECRET") = None).
  { destruct Hname as [-> | ->]; rewrite Hempty; auto. }
  assert (Hu : truthy (getenv (unsetenv name w) "API_KEY") = None
               \/ truthy (getenv (unsetenv name w) "API_SECRET") = None).
  { destruct Hname as [-> | ->]; [left|right]; apply truthy_unsetenv. }
  rewrite (missing_credentials_run w argv Hw).
  rewrite (missing_credentials_run _ argv Hu).
  split; [reflexivity|]. split.
  - intros t args Hv. pose proof (validated_quietly _ _ _ _ Hv) as ->.
    rewrite Hv, bind_ret_nil. split; reflexivity.
  - pose proof (proj1 (validate_no_exchange_call argv)) as Hno.
    destruct (validate argv) as [t [a|e|n]]; unfold trace in *; cbn [fst bind] in *;
      try exact Hno.
    rewrite exchange_calls_app, Hno. reflexivity.
Qed.

(** *** Command lines in plain form *)

Lemma positional_not_dashdash v :
  parse_optional v = Positional -> String.eqb v "--" = false.
Proof.
  intros H. destruct (String.eqb v "--") eqn:E; [|reflexivity].
  apply String.eqb_eq in E. subst v. discriminate H.
Qed.

Lemma classify_option s a os e rest :
  String.eqb s "--" = false ->
  parse_optional s = Opt a os e ->
  classify (s :: rest) =
    match classify rest with
    | inl err => inl err
    | inr l => inr ((s, OptionArg a os e) :: l)
    end.
Proof. intros H1 H2. cbn [classify]. rewrite H1, H2. reflexivity. Qed.

Lemma classify_positional v rest :
  parse_optional v = Positional ->
  classify (v :: rest) =
    match classify rest with
    | inl err => inl err
    | inr l => inr ((v, PlainArg) :: l)
    end.
Proof.
  intros H. cbn [classify]. rewrite (positional_not_dashdash _ H), H. reflexivity.
Qed.

Lemma classify_flag d v rest :
  parse_optional v = Positional ->
  classify (option_string_of d :: v :: rest) =
    match classify rest with
    | inl err => inl err
    | inr l => inr ((option_string_of d,
                     OptionArg (Some (Store d)) (option_string_of d) None) :: (v, PlainArg) :: l)
    end.
Proof.
  intros H.
  rewrite (classify_option _ (Some (Store d)) (option_string_of d) None)
    by (destruct d; reflexivity).
  rewrite (classify_positional _ _ H). destruct (classify rest); reflexivity.
Qed.

Lemma classify_plain l :
  Forall (fun dv => parse_optional (snd dv) = Positional) l ->
  classify (plain_argv l) = inr (plain_classes l).
Proof.
  induction 1 as [|[d v] l Hv _ IH]; [reflexivity|].
  cbn [plain_argv plain_classes app]. cbn in Hv.
  rewrite (classify_flag _ _ _ Hv), IH. reflexivity.
Qed.

Lemma consume_plain l : forall ns extras,
  consume float_of_string ns extras (plain_classes l) =
    match store_all float_of_string l ns with
    | inl err => UsageError err
    | inr ns' => finish ns' extras
    end.
Proof.
  induction l as [|[d v] l IH]; intros ns extras; [reflexivity|].
  cbn [plain_classes store_all app consume].
  destruct (take_action _ d v ns) as [err|ns']; [reflexivity|]. apply IH.
Qed.

(** On a command line in plain form the parser stores the options from
    left to right and then checks the required ones. *)
Lemma parse_args_plain l :
  Forall (fun dv => parse_optional (snd dv) = Positional) l ->
  parse_args float_of_string (plain_argv l) =
    match store_all float_of_string l no_slots with
    | inl err => UsageError err
    | inr ns => finish ns []
    end.
Proof.
  intros H. unfold parse_args. rewrite (classify_plain _ H). apply consume_plain.
Qed.

(** *** What the parser refuses *)








(** A usage error ends the run at once, with status 2. *)
Lemma usage_error_run w argv err :
  parse_args float_of_string argv = UsageError err ->
  run w argv = ([UsageMessage err], Exit 2).
Proof. intros H. unfold main. rewrite validate_unfold, H. reflexivity. Qed.


(** *** The order that reaches the exchange *)

Lemma in_order_calls ps t :
  In (FuturesCreateOrder ps) t <-> In (FuturesCreateOrder ps) (order_calls t).
Proof.
  unfold order_calls. rewrite List.filter_In. cbn. tauto.
Qed.

(** Either main submits nothing, or the arguments were validated and
    what it submits is what [place_order] does for them. *)
Lemma main_order_calls w argv :
  order_calls (trace (run w argv)) = [] \/
  exists (args : Namespace) self,
    validate argv = ([], Val args) /\
    order_calls (trace (run w argv)) = order_calls (trace (order_of self args)).
Proof.
  pose proof (proj2 (validate_no_exchange_call argv)) as Hno.
  destruct (validate argv) as [t [v|e|n]] eqn:Hv.
  - pose proof (validated_quietly _ _ _ _ Hv) as ->.
    destruct (truthy (getenv w "API_KEY")) as [k|] eqn:Hk;
      [destruct (truthy (getenv w "API_SECRET")) as [s|] eqn:Hs|].
    + destruct (Client w k s "com" true) as [self|e] eqn:Hc;
        [destruct (futures_ping self) as [[]|e] eqn:Hp|].
      * destruct (validated_shape v) as [[args ->]|Hl].
        -- right. exists args, self. split; [reflexivity|].
           rewrite (main_connected _ _ _ _ _ _ Hv Hk Hs Hc Hp). unfold trace.
           destruct (snd (order_of self args)); cbn [fst];
             rewrite ?order_calls_app; cbn; rewrite ?app_nil_r; reflexivity.
        -- left. rewrite (main_no_upper _ _ _ _ _ _ Hv Hk Hs Hc Hp Hl). reflexivity.
      * left. unfold main. rewrite Hv, bind_ret_nil, Hk, Hs.
        unfold BasicBot, call. cbn. rewrite Hc. cbn. rewrite Hp. reflexivity.
      * left. unfold main. rewrite Hv, bind_ret_nil, Hk, Hs.
        unfold BasicBot, call. cbn. rewrite Hc. reflexivity.
    + left. rewrite missing_credentials_run by auto. rewrite Hv. reflexivity.
    + left. rewrite missing_credentials_run by auto. rewrite Hv. reflexivity.
  - left. unfold main. rewrite Hv. exact Hno.
  - left. unfold main. rewrite Hv. exact Hno.
Qed.

(** C6 (amended). Whenever a request is submitted, its symbol and side
    are the upper-cased values of the command line, whatever the casing
    of the symbol; the side is one the parser accepts, BUY or SELL as
    written, on which upper-casing changes nothing. *)
Theorem wire_symbol_and_side_upper w argv ps :
  In (FuturesCreateOrder ps) (trace (run w argv)) ->
  exists args,
    parse_args float_of_string argv = Parsed args /\
    ps !! "symbol" = Some (VStr (upper (symbol args))) /\
    ps !! "side" = Some (VStr (upper (side args))) /\
    (side args = "BUY" \/ side args = "SELL") /\
    upper (side args) = side args.
Proof.
  intros Hin. apply in_order_calls in Hin.
  destruct (main_order_calls w argv) as [E|(args & self & Hv & E)]; rewrite E in Hin.
  - destruct Hin.
  - pose proof (validated_type _ _ _ Hv) as (_ & Hup & _).
    pose proof (validated _ _ _ _ Hv) as (_ & Hp & _).
    pose proof (parse_args_choices _ _ _ Hp) as [Hside _].
    exists args. split; [exact Hp|].
    unfold order_of in Hin. rewrite place_order_calls in Hin.
    assert (ps !! "symbol" = Some (VStr (upper (symbol args))) /\
            ps !! "side" = Some (VStr (upper (side args)))) as [H1 H2].
    { destruct (String.eqb _ ORDER_TYPE_LIMIT).
      - destruct (price args) as [[p|]|]; [|destruct Hin|];
          destruct Hin as [[= <-]|[]]; split; reflexivity.
      - destruct Hin as [[= <-]|[]]. split; reflexivity. }
    auto.
Qed.

(** A symbol is taken in any casing: on a plain market order whose
    symbol is [sy], the request carries [upper sy]. *)
Lemma symbol_of_any_casing_is_submitted w sy q x k s self :
  parse_optional sy = Positional ->
  parse_optional q = Positional ->
  float_of_string q = Some x ->
  le_zero x = false ->
  truthy (getenv w "API_KEY") = Some k ->
  truthy (getenv w "API_SECRET") = Some s ->
  Client w k s "com" true = Returns self ->
  futures_ping self = Returns tt ->
  order_calls (trace (run w (plain_argv [(d_symbol, sy); (d_side, "BUY");
                                         (d_type, "MARKET"); (d_qty, q)])))
    = [FuturesCreateOrder (base_params (upper sy) "BUY" "MARKET" x)].
Proof.
  intros Hsy Hq Hx Hle Hk Hs Hc Hp.
  set (l := [(d_symbol, sy); (d_side, "BUY"); (d_type, "MARKET"); (d_qty, q)]).
  set (args := {| symbol := sy; side := "BUY"; type := "MARKET"; qty := x; price := None |}).
  assert (Hparse : parse_args float_of_string (plain_argv l) = Parsed args).
  { rewrite parse_args_plain by (repeat constructor; assumption).
    unfold l, store_all, take_action.
    rewrite (positional_not_dashdash _ Hsy), (positional_not_dashdash _ Hq), Hx.
    reflexivity. }
  assert (Hv : validate (plain_argv l) = ([], Val args)).
  { rewrite (validate_parsed _ _ _ Hparse). cbn [qty type args].
    rewrite Hle. reflexivity. }
  rewrite (main_connected _ _ _ _ _ _ Hv Hk Hs Hc Hp).
  assert (Hcalls : order_calls (fst (order_of self args))
                   = [FuturesCreateOrder (base_params (upper sy) "BUY" "MARKET" x)]).
  { unfold order_of. apply (place_order_calls self (upper sy) "BUY" "MARKET" x None). }
  unfold trace. destruct (snd (order_of self args)); cbn [fst];
    rewrite ?order_calls_app, Hcalls; reflexivity.
Qed.

End ProgramFacts.

(** ** The program on concrete inputs *)

Example decimal_literal_examples :
  decimal_literal "1" = Some (float_of_Z 1) /\
  decimal_literal "0.01" = Some hundredth /\
  decimal_literal "50000" = Some (float_of_Z 50000) /\
  decimal_literal "-0" = Some (S754_zero true) /\
  decimal_literal "abc" = None.
Proof. repeat split. Qed.

Example le_zero_examples :
  le_zero zero = true /\ le_zero (S754_zero true) = true /\
  le_zero (float_of_Z (-5)) = true /\ le_zero hundredth = false /\
  le_zero S754_nan = false.
Proof. repeat split. Qed.

Example upper_examples :
  upper "btcusdt" = "BTCUSDT" /\ upper "Buy" = "BUY" /\ upper "eth-usdt_1" = "ETH-USDT_1".
Proof. repeat split. Qed.

(** A filled market order: the response comes back unchanged, its three
    fields are printed, the process ends with status 0. *)
Example market_buy_filled :
  main decimal_literal (testnet (filling_client filled)) market_buy =
    (connected "key" "secret" ++
     [ Log INFO (attempt "BTCUSDT" "BUY" "MARKET" (float_of_Z 1) None);
       FuturesCreateOrder (base_params "BTCUSDT" "BUY" "MARKET" (float_of_Z 1));
       Log INFO [Lit "Order placed successfully. Status: "; Lit "FILLED"];
       Log DEBUG [Lit "API Response (Success): "; Dict filled];
       Stdout [Lit nl; Lit "Order Placed Successfully:"];
       Stdout [Lit "   Order ID: "; Lit "12345"];
       Stdout [Lit "   Status: "; Lit "FILLED"];
       Stdout [Lit "   Type: "; Lit "MARKET"] ],
     Val tt).
Proof. reflexivity. Qed.

(** An API error: its code and message are logged, the process ends
    with status 0. *)
Example api_error_logged :
  In (Log ERROR [Lit "Binance API Error (Code "; Lit "-1021"; Lit "): ";
                 Lit "Timestamp outside recvWindow"])
     (trace (main decimal_literal (testnet (rejecting_client recv_window)) market_buy)) /\
  exit_status (main decimal_literal (testnet (rejecting_client recv_window)) market_buy) = 0%Z.
Proof. split; [|reflexivity]. do 6 right. left. reflexivity. Qed.

(** A market order with a price on the command line: the price is not
    in the request. *)
Example market_order_with_price :
  order_calls (trace (main decimal_literal (testnet (filling_client filled))
                        (market_buy ++ ["--price"; "100"])))
    = [FuturesCreateOrder (base_params "BTCUSDT" "BUY" "MARKET" (float_of_Z 1))] /\
  base_params "BTCUSDT" "BUY" "MARKET" (float_of_Z 1) !! "price" = None.
Proof. split; reflexivity. Qed.

Example order_error_exits_0 :
  exit_status (main decimal_literal (testnet (rejecting_client margin)) market_buy) = 0%Z.
Proof. reflexivity. Qed.

Example other_error_exits_1 :
  exit_status (main decimal_literal (testnet (rejecting_client timed_out)) market_buy) = 1%Z.
Proof. reflexivity. Qed.

(** The other spellings argparse accepts, and the ones it refuses. *)
Example parse_args_examples :
  parse_args decimal_literal ["--sym=btcusdt"; "--si"; "BUY"; "--ty"; "MARKET"; "--q"; "1"]
    = Parsed market_buy_args /\
  parse_args decimal_literal ["--s"; "btcusdt"; "--side"; "BUY"; "--type"; "MARKET"; "--qty"; "1"]
    = UsageError (AmbiguousOption "--s") /\
  parse_args decimal_literal (market_buy ++ ["--help"]) = HelpExit /\
  parse_args decimal_literal (market_buy ++ ["extra"])
    = UsageError (UnrecognizedArguments ["extra"]) /\
  parse_args decimal_literal ["--symbol"; "BTCUSDT"; "--side"; "BUY"; "--type"; "STOP"; "--qty"; "1"]
    = UsageError (InvalidChoice "--type" "STOP") /\
  parse_args decimal_literal ["--symbol"; "BTCUSDT"; "--side"; "BUY"; "--type"; "MARKET"; "--qty"; "ten"]
    = UsageError (InvalidFloat "--qty" "ten") /\
  parse_args decimal_literal ["--symbol"; "BTCUSDT"; "--side"; "BUY"; "--type"; "MARKET"; "--qty"]
    = UsageError (ExpectedOneArgument "--qty").
Proof. repeat split. Qed.

(** The exponent form of a number. *)
Example exponent_literal_examples :
  exponent_literal "-1e5" = Some (float_of_Z (-100000)) /\
  exponent_literal "12e3" = Some (float_of_Z 12000) /\
  exponent_literal "0.01" = Some hundredth /\
  exponent_literal "1e" = None /\
  exponent_literal "ten" = None.
Proof. repeat split. Qed.

(** A negative quantity in exponent form is an argument when it is
    attached to its option, and is then refused by the validation. *)
Example attached_exponent_qty :
  main exponent_literal (testnet (filling_client filled))
       ["--symbol"; "BTCUSDT"; "--side"; "BUY"; "--type"; "MARKET"; "--qty=-1e5"]
    = ([Log ERROR [Lit "Quantity must be greater than zero."]], Exit 1).
Proof. reflexivity. Qed.

(** The separator as the explicit argument of [--qty]: the quantity is
    the empty list, and comparing it with zero raises outside the [try]
    of main. *)
Example separator_as_quantity :
  parse_args decimal_literal separator_qty =
    Accepted {| raw_symbol := Str "BTCUSDT"; raw_side := Str "BUY"; raw_type := Str "MARKET";
                raw_qty := FltList; raw_price := None |} /\
  main decimal_literal (testnet (filling_client filled)) separator_qty = ([], Raise TypeError) /\
  exit_status (main decimal_literal (testnet (filling_client filled)) separator_qty) = 1%Z.
Proof. repeat split. Qed.

(** As the explicit argument of [--price] on a market order: the price
    is the empty list, which nothing looks at; the order is submitted. *)
Example separator_as_price :
  parse_args decimal_literal separator_price =
    Parsed {| symbol := "BTCUSDT"; side := "BUY"; type := "MARKET";
              qty := float_of_Z 1; price := PriceList |} /\
  order_calls (trace (main decimal_literal (testnet (filling_client filled)) separator_price))
    = [FuturesCreateOrder (base_params "BTCUSDT" "BUY" "MARKET" (float_of_Z 1))] /\
  exit_status (main decimal_literal (testnet (filling_client filled)) separator_price) = 0%Z.
Proof. repeat split. Qed.

(** As the explicit argument of [--symbol]: the symbol is the empty
    list, which has no [upper]; the client is connected, nothing is
    submitted, and main reports the exception and exits with status 1. *)
Example separator_as_symbol :
  main decimal_literal (testnet (filling_client filled)) separator_symbol =
    (connected "key" "secret" ++
     [ Log CRITICAL [Lit "Main execution failed: ";
                     Lit "'list' object has no attribute 'upper'"] ],
     Exit 1).
Proof. reflexivity. Qed.

(** *** Witnesses *)


Lemma validated_request_wire_params_witness :
  validate_and_parse_args decimal_literal limit_buy = ([], Val limit_buy_args) /\
  exists ps,
    order_calls (trace (order_of (filling_client filled) limit_buy_args))
      = [FuturesCreateOrder ps] /\
    ps !! "timeInForce" = Some (VStr "GTC") /\
    (type limit_buy_args = "LIMIT" ->
     exists p, price limit_buy_args = Some p /\
       ps = limit_order_params (upper (symbol limit_buy_args)) (upper (side limit_buy_args))
                               (qty limit_buy_args) p).
Proof.
  split; [reflexivity|].
  apply (validated_request_wire_params decimal_literal limit_buy [] limit_buy_args
           (filling_client filled)).
  reflexivity.
Defined.

Lemma limit_order_nonpositive_price_is_submitted_witness :
  le_zero (float_of_Z (-1)) = true /\
  exists ps,
    order_calls (trace (place_order (filling_client filled) "BTCUSDT" "BUY"
                          ORDER_TYPE_LIMIT (float_of_Z 1) (Some (float_of_Z (-1)))))
      = [FuturesCreateOrder ps] /\
    ps !! "price" = Some (VFloat (float_of_Z (-1))) /\
    ~ In (Log ERROR [Lit "LIMIT order requires a 'price' parameter."])
         (trace (place_order (filling_client filled) "BTCUSDT" "BUY"
                   ORDER_TYPE_LIMIT (float_of_Z 1) (Some (float_of_Z (-1))))).
Proof.
  split; [reflexivity|].
  apply (limit_order_nonpositive_price_is_submitted
           (filling_client filled) "BTCUSDT" "BUY" (float_of_Z 1) (float_of_Z (-1))).
  reflexivity.
Defined.



Lemma empty_credential_is_absent_witness :
  getenv (empty_key (filling_client filled)) "API_KEY" = Some EmptyString /\
  main decimal_literal (empty_key (filling_client filled)) market_buy
    = main decimal_literal (unsetenv "API_KEY" (empty_key (filling_client filled))) market_buy /\
  exit_status (main decimal_literal (empty_key (filling_client filled)) market_buy) = 1%Z /\
  exchange_calls (trace (main decimal_literal (empty_key (filling_client filled)) market_buy))
    = [].
Proof.
  split; [reflexivity|].
  destruct (empty_credential_is_absent decimal_literal (empty_key (filling_client filled))
              market_buy "API_KEY") as (H1 & H2 & H3);
    [left; reflexivity | reflexivity |].
  split; [exact H1|]. split; [|exact H3].
  apply (H2 [] market_buy_args). reflexivity.
Defined.

Lemma wire_symbol_and_side_upper_witness :
  In (FuturesCreateOrder (base_params "BTCUSDT" "BUY" "MARKET" (float_of_Z 1)))
     (trace (main decimal_literal (testnet (filling_client filled)) market_buy)) /\
  exists args,
    parse_args decimal_literal market_buy = Parsed args /\
    base_params "BTCUSDT" "BUY" "MARKET" (float_of_Z 1) !! "symbol"
      = Some (VStr (upper (symbol args))) /\
    base_params "BTCUSDT" "BUY" "MARKET" (float_of_Z 1) !! "side"
      = Some (VStr (upper (side args))) /\
    (side args = "BUY" \/ side args = "SELL") /\
    upper (side args) = side args.
Proof.
  assert (H : In (FuturesCreateOrder (base_params "BTCUSDT" "BUY" "MARKET" (float_of_Z 1)))
                 (trace (main decimal_literal (testnet (filling_client filled)) market_buy))).
  { do 5 right. left. reflexivity. }
  split; [exact H|].
  apply (wire_symbol_and_side_upper decimal_literal (testnet (filling_client filled))
           market_buy _ H).
Defined.


(** *** Counterexamples *)



(** C6, as stated. A lower-case side does not reach the request in
    upper case: the parser refuses it, the process exits with status 2
    and nothing is submitted. *)
Lemma lower_case_side_is_refused :
  parse_args decimal_literal lower_case_side = UsageError (InvalidChoice "--side" "buy") /\
  exit_status (main decimal_literal (testnet (filling_client filled)) lower_case_side) = 2%Z /\
  ~ exists ps, In (FuturesCreateOrder ps)
                  (trace (main decimal_literal (testnet (filling_client filled))
                            lower_case_side)).
Proof.
  split; [reflexivity|]. split; [reflexivity|].
  intros [ps [H|[]]]. discriminate H.
Qed.


(** * Further properties *)

(** ** The shape of a submission *)

(** The four ways [submit] ends, by the answer of the exchange. *)
Lemma submit_cases self p :
  (exists r, futures_create_order self p = Returns r /\
     submit self p =
       ([ FuturesCreateOrder p;
          Log INFO [Lit "Order placed successfully. Status: ";
                    Lit (str_of_get (r !! "status"))];
          Log DEBUG [Lit "API Response (Success): "; Dict r];
          Stdout [Lit nl; Lit "Order Placed Successfully:"];
          Stdout [Lit "   Order ID: "; Lit (str_of_get (r !! "orderId"))];
          Stdout [Lit "   Status: "; Lit (str_of_get (r !! "status"))];
          Stdout [Lit "   Type: "; Lit (str_of_get (r !! "type"))] ],
        Val (Some r))) \/
  (exists e, futures_create_order self p = Raises e /\ kind e = BinanceAPIException /\
     submit self p =
       ([ FuturesCreateOrder p;
          Log ERROR [Lit "Binance API Error (Code "; Lit (pretty (code e));
                     Lit "): "; Lit (message e)];
          Stdout [Lit nl; Lit "Order Failed (API Error): "; Lit (message e)] ],
        Val None)) \/
  (exists e, futures_create_order self p = Raises e /\ kind e = BinanceOrderException /\
     submit self p =
       ([ FuturesCreateOrder p;
          Log ERROR [Lit "Binance Order Error (Code "; Lit (pretty (code e));
                     Lit "): "; Lit (message e)];
          Stdout [Lit nl; Lit " Order Failed (Order Error): "; Lit (message e)] ],
        Val None)) \/
  (exists e, futures_create_order self p = Raises e /\ kind e = OtherException /\
     submit self p = ([FuturesCreateOrder p], Raise e)).
Proof.
  unfold submit, call. cbn.
  destruct (futures_create_order self p) as [r|e]; cbn.
  - left. eauto.
  - destruct (kind e) eqn:K; cbn.
    + right. left. eauto.
    + right. right. left. eauto.
    + right. right. right. eauto.
Qed.

(** [place_order] is the attempt record followed by the defensive
    refusal or by the submission. *)
Lemma place_order_unfold self symbol side order_type quantity price :
  place_order self symbol side order_type quantity price =
    let rest :=
      if String.eqb order_type ORDER_TYPE_LIMIT then
        match price with
        | Price None =>
            ([ Log ERROR [Lit "LIMIT order requires a 'price' parameter."];
               Stdout [Lit "Order Failed: LIMIT order requires a target price."] ],
             Val None)
        | Price (Some p) =>
            submit self (<["price" := VFloat p]>
                           (base_params symbol side order_type quantity))
        | PriceList =>
            submit self (<["price" := VList]>
                           (base_params symbol side order_type quantity))
        end
      else submit self (base_params symbol side order_type quantity) in
    (Log INFO (attempt symbol side order_type quantity price) :: fst rest, snd rest).
Proof.
  unfold place_order, log. unfold emit at 1. rewrite bind_val. cbn [app].
  destruct (String.eqb order_type ORDER_TYPE_LIMIT); [destruct price as [[p|]|]|]; reflexivity.
Qed.

Lemma plain_params_eq symbol side order_type q :
  base_params symbol side order_type q = plain_order_params symbol side order_type q.
Proof. reflexivity. Qed.

Lemma place_order_submits self symbol side order_type quantity (price : pyprice) :
  (order_type = ORDER_TYPE_LIMIT -> price <> None) ->
  place_order self symbol side order_type quantity price =
    (Log INFO (attempt symbol side order_type quantity price)
       :: fst (submit self (wire_params symbol side order_type quantity price)),
     snd (submit self (wire_params symbol side order_type quantity price))).
Proof.
  intros Hprice. rewrite place_order_unfold. cbv zeta. unfold wire_params.
  destruct (String.eqb order_type ORDER_TYPE_LIMIT) eqn:E; [|reflexivity].
  apply String.eqb_eq in E. destruct price as [[p|]|]; [reflexivity| |reflexivity].
  exfalso. apply (Hprice E). reflexivity.
Qed.


Lemma submit_returned self p r :
  futures_create_order self p = Returns r ->
  submit self p =
    ([ FuturesCreateOrder p;
       Log INFO [Lit "Order placed successfully. Status: ";
                 Lit (str_of_get (r !! "status"))];
       Log DEBUG [Lit "API Response (Success): "; Dict r];
       Stdout [Lit nl; Lit "Order Placed Successfully:"];
       Stdout [Lit "   Order ID: "; Lit (str_of_get (r !! "orderId"))];
       Stdout [Lit "   Status: "; Lit (str_of_get (r !! "status"))];
       Stdout [Lit "   Type: "; Lit (str_of_get (r !! "type"))] ],
     Val (Some r)).
Proof.
  intros H. destruct (submit_cases self p) as [(r' & E & ->)|[C|[C|C]]].
  - rewrite H in E. injection E as <-. reflexivity.
  - destruct C as (e & E & _). rewrite H in E. discriminate E.
  - destruct C as (e & E & _). rewrite H in E. discriminate E.
  - destruct C as (e & E & _). rewrite H in E. discriminate E.
Qed.





(** X4. The only exception that leaves [place_order] is one that the
    order-creation call raised on the parameters built and that is
    neither an exchange API error nor an exchange order error; the call
    was then issued once. *)
Theorem place_order_raises_only_unclassified self symbol side order_type quantity price e :
  snd (place_order self symbol side order_type quantity price) = Raise e ->
  kind e = OtherException /\
  futures_create_order self (wire_params symbol side order_type quantity price) = Raises e /\
  order_calls (trace (place_order self symbol side order_type quantity price))
    = [FuturesCreateOrder (wire_params symbol side order_type quantity price)].
Proof.
  rewrite place_order_calls, place_order_unfold. cbv zeta. cbn [snd]. unfold wire_params.
  intros H.
  assert (Hsub : forall p, snd (submit self p) = Raise e ->
                           kind e = OtherException /\ futures_create_order self p = Raises e).
  { intros p Hp.
    destruct (submit_cases self p) as [(r & _ & E)|[(e' & _ & _ & E)|[(e' & _ & _ & E)|(e' & R & K & E)]]];
      rewrite E in Hp; try discriminate Hp.
    injection Hp as <-. auto. }
  destruct (String.eqb order_type ORDER_TYPE_LIMIT).
  - destruct price as [[p|]|]; [|discriminate H|]; destruct (Hsub _ H); auto.
  - destruct (Hsub _ H). auto.
Qed.

Lemma place_order_never_exits self symbol side order_type quantity price n :
  snd (place_order self symbol side order_type quantity price) <> Exit n.
Proof.
  rewrite place_order_unfold. cbv zeta. cbn [snd].
  assert (Hsub : forall p, snd (submit self p) <> Exit n).
  { intros p.
    destruct (submit_cases self p) as [(r & _ & E)|[(e' & _ & _ & E)|[(e' & _ & _ & E)|(e' & R & K & E)]]];
      rewrite E; discriminate. }
  destruct (String.eqb order_type ORDER_TYPE_LIMIT); [destruct price as [[p|]|]|]; auto;
    discriminate.
Qed.

(** X5. An order type that is not exactly LIMIT, the lower-case
    [limit] included, is submitted without a price, whatever price is
    passed: the request is the five-field dictionary, and the defensive
    check is never applied to it. *)
Theorem non_limit_order_has_five_fields self symbol side order_type quantity price :
  order_type <> ORDER_TYPE_LIMIT ->
  order_calls (trace (place_order self symbol side order_type quantity price))
    = [FuturesCreateOrder (plain_order_params symbol side order_type quantity)] /\
  ~ In (Log ERROR [Lit "LIMIT order requires a 'price' parameter."])
       (trace (place_order self symbol side order_type quantity price)).
Proof.
  intros Hne. apply String.eqb_neq in Hne. split.
  - rewrite place_order_calls, Hne. reflexivity.
  - rewrite place_order_unfold. cbv zeta. rewrite Hne. unfold trace. cbn [fst].
    intros [H|H]; [discriminate H|].
    destruct (submit_cases self (base_params symbol side order_type quantity))
      as [(r & _ & E)|[(e' & _ & _ & E)|[(e' & _ & _ & E)|(e' & R & K & E)]]];
      rewrite E in H; cbn in H;
      repeat (destruct H as [H|H]; [discriminate H|]); exact H.
Qed.

(** X6. [place_order] never retries: whatever the exchange answers, it
    issues one order-creation call, and none when it refuses a LIMIT
    order without price. *)
Theorem place_order_submits_once self symbol side order_type quantity price :
  length (order_calls (trace (place_order self symbol side order_type quantity price))) =
    if String.eqb order_type ORDER_TYPE_LIMIT
    then match price with
         | Price None => 0%nat
         | _ => 1%nat
         end
    else 1%nat.
Proof.
  rewrite place_order_calls.
  destruct (String.eqb order_type ORDER_TYPE_LIMIT); [destruct price as [[p|]|]|]; reflexivity.
Qed.

(** X7. The attempt record mentions the price only when the price is
    true as a condition: a LIMIT order with price zero is submitted
    with [price: 0] while its attempt record shows no price. *)
Theorem zero_price_is_submitted_unmentioned self symbol side quantity p :
  float_truthy p = false ->
  In (Log INFO (attempt symbol side ORDER_TYPE_LIMIT quantity None))
     (trace (place_order self symbol side ORDER_TYPE_LIMIT quantity (Some p))) /\
  exists ps,
    order_calls (trace (place_order self symbol side ORDER_TYPE_LIMIT quantity (Some p)))
      = [FuturesCreateOrder ps] /\
    ps !! "price" = Some (VFloat p).
Proof.
  intros Hp. split.
  - rewrite place_order_unfold. cbv zeta. left. unfold attempt. rewrite Hp. reflexivity.
  - eexists. split; [rewrite place_order_calls; reflexivity|]. apply lookup_insert_eq.
Qed.

(** ** The shape of a run *)

Section RunFacts.

Variable float_of_string : string -> option float.

Local Abbreviation validate := (validate_and_parse_args float_of_string).
Local Abbreviation run := (main float_of_string).

Lemma str_eqb_eq v s : str_eqb v s = true -> v = Str s.
Proof.
  destruct v as [s'|]; [|discriminate]. cbn. intros H. apply String.eqb_eq in H.
  subst. reflexivity.
Qed.

(** The six ways validation ends. *)
Lemma validate_cases argv :
  (exists err, parse_args float_of_string argv = UsageError err /\
     validate argv = ([UsageMessage err], Exit 2)) \/
  (parse_args float_of_string argv = HelpExit /\
     validate argv = ([HelpMessage], Exit 0)) \/
  (exists args, parse_args float_of_string argv = Accepted args /\
     (raw_qty args = FltList \/ raw_type args = Str "LIMIT" /\ raw_price args = PriceList) /\
     validate argv = ([], Raise TypeError)) \/
  (exists args q, parse_args float_of_string argv = Accepted args /\
     raw_qty args = Flt q /\ le_zero q = true /\
     validate argv = ([Log ERROR [Lit "Quantity must be greater than zero."]], Exit 1)) \/
  (exists args q, parse_args float_of_string argv = Accepted args /\
     raw_qty args = Flt q /\ le_zero q = false /\ raw_type args = Str "LIMIT" /\
     (raw_price args = None \/ exists p, raw_price args = Some p /\ le_zero p = true) /\
     validate argv = ([Log ERROR [Lit "LIMIT orders require a positive --price."]], Exit 1)) \/
  (exists args q, parse_args float_of_string argv = Accepted args /\
     raw_qty args = Flt q /\ le_zero q = false /\
     (raw_type args = Str "LIMIT" -> exists p, raw_price args = Some p /\ le_zero p = false) /\
     validate argv = ([], Val {| v_symbol := raw_symbol args; v_side := raw_side args;
                                 v_type := raw_type args; v_qty := q;
                                 v_price := raw_price args |})).
Proof.
  rewrite validate_unfold. cbv zeta.
  destruct (parse_args float_of_string argv) as [args| |err].
  - destruct (raw_qty args) as [q|] eqn:Hraw.
    + destruct (le_zero q) eqn:Hq.
      * do 3 right. left. exists args, q. auto.
      * destruct (str_eqb (raw_type args) "LIMIT") eqn:Hty.
        -- apply str_eqb_eq in Hty. destruct (raw_price args) as [[p|]|] eqn:Hp.
           ++ destruct (le_zero p) eqn:Hle.
              ** do 4 right. left. exists args, q. rewrite Hp. repeat split; auto.
                 right. eauto.
              ** do 5 right. exists args, q. rewrite Hp. repeat split; auto.
                 intros _. eauto.
           ++ do 4 right. left. exists args, q. rewrite Hp. repeat split; auto.
           ++ do 2 right. left. exists args. auto.
        -- do 5 right. exists args, q. repeat split; auto.
           intros E. rewrite E in Hty. discriminate Hty.
    + do 2 right. left. exists args. auto.
  - right. left. auto.
  - left. eauto.
Qed.

(** The three ways [BasicBot.__init__] ends. *)
Lemma BasicBot_cases w k s t :
  (exists self, Client w k s "com" t = Returns self /\ futures_ping self = Returns tt /\
     BasicBot w k s t =
       ([ Log INFO [Lit "Initializing BasicBot..."];
          NewClient k s "com" t;
          FuturesPing;
          Log INFO [Lit "Binance Client initialized successfully and connected to Testnet."] ],
        Val self)) \/
  (exists e, Client w k s "com" t = Raises e /\
     BasicBot w k s t =
       ([ Log INFO [Lit "Initializing BasicBot..."];
          NewClient k s "com" t;
          Log ERROR [Lit "Error initializing Binance Client: "; Lit (text e)] ],
        Raise e)) \/
  (exists self e, Client w k s "com" t = Returns self /\ futures_ping self = Raises e /\
     BasicBot w k s t =
       ([ Log INFO [Lit "Initializing BasicBot..."];
          NewClient k s "com" t;
          FuturesPing;
          Log ERROR [Lit "Error initializing Binance Client: "; Lit (text e)] ],
        Raise e)).
Proof.
  unfold BasicBot, call. cbn.
  destruct (Client w k s "com" t) as [self|e]; cbn.
  - destruct (futures_ping self) as [[]|e] eqn:Hp; cbn.
    + left. eauto.
    + right. right. eauto.
  - right. left. eauto.
Qed.

(** The run of main when [BasicBot.__init__] raises. *)
Lemma main_init_failed w argv args k s tb e :
  validate argv = ([], Val args) ->
  truthy (getenv w "API_KEY") = Some k ->
  truthy (getenv w "API_SECRET") = Some s ->
  BasicBot w k s true = (tb, Raise e) ->
  run w argv =
    (tb ++ [Log CRITICAL [Lit "Main execution failed: "; Lit (text e)]], Exit 1).
Proof.
  intros Hv Hk Hs Hb. unfold main. rewrite Hv, bind_ret_nil, Hk, Hs, Hb. reflexivity.
Qed.


Lemma truthy_None w name :
  truthy (getenv w name) = None <->
  getenv w name = None \/ getenv w name = Some EmptyString.
Proof.
  unfold truthy. destruct (getenv w name) as [v|]; [|tauto].
  destruct v; cbn; split; auto; intros [H|H]; discriminate H.
Qed.

Lemma main_ending w argv : ending float_of_string w argv (run w argv).
Proof.
  destruct (validate_cases argv)
    as [(err & Hp & Hv)|[(Hp & Hv)|[(args & Hp & Hl & Hv)|[(args & q & Hp & Hraw & Hq & Hv)
       |[(args & q & Hp & Hraw & Hq & Hty & Hpr & Hv)|(args & q & Hp & Hraw & Hq & Hpr & Hv)]]]]].
  - replace (run w argv) with (([UsageMessage err], Exit 2) : M unit)
      by (unfold main; rewrite Hv; reflexivity).
    apply refused_by_parser, Hp.
  - replace (run w argv) with (([HelpMessage], Exit 0) : M unit)
      by (unfold main; rewrite Hv; reflexivity).
    apply help_printed, Hp.
  - replace (run w argv) with (([], Raise TypeError) : M unit)
      by (unfold main; rewrite Hv; reflexivity).
    eapply validation_raised; eauto.
  - replace (run w argv)
      with (([Log ERROR [Lit "Quantity must be greater than zero."]], Exit 1) : M unit)
      by (unfold main; rewrite Hv; reflexivity).
    eapply refused_by_validation; eauto.
  - replace (run w argv)
      with (([Log ERROR [Lit "LIMIT orders require a positive --price."]], Exit 1) : M unit)
      by (unfold main; rewrite Hv; reflexivity).
    eapply refused_by_validation; eauto.
  - set (v := {| v_symbol := raw_symbol args; v_side := raw_side args;
                 v_type := raw_type args; v_qty := q; v_price := raw_price args |}) in Hv.
    destruct (truthy (getenv w "API_KEY")) as [k|] eqn:Hk;
      [destruct (truthy (getenv w "API_SECRET")) as [s|] eqn:Hs|].
    + destruct (BasicBot_cases w k s true)
        as [(self & Hc & Hping & Hb)|[(e & Hc & Hb)|(self & e & Hc & Hping & Hb)]].
      * destruct (validated_shape v) as [[a Ha]|Hlist].
        -- rewrite Ha in Hv. rewrite (main_connected _ _ _ _ _ _ _ Hv Hk Hs Hc Hping).
           destruct (snd (order_of self a)) as [r|e|n] eqn:Ho.
           ++ eapply order_returned; eauto.
           ++ eapply order_raised; eauto.
           ++ exfalso. exact (place_order_never_exits _ _ _ _ _ _ _ Ho).
        -- rewrite (main_no_upper _ _ _ _ _ _ _ Hv Hk Hs Hc Hping Hlist).
           eapply no_upper; eauto.
      * rewrite (main_init_failed _ _ _ _ _ _ _ Hv Hk Hs Hb).
        eapply not_connected; eauto.
      * rewrite (main_init_failed _ _ _ _ _ _ _ Hv Hk Hs Hb).
        eapply not_connected; eauto.
    + rewrite (missing_credentials_run _ w argv) by auto. rewrite Hv, bind_ret_nil.
      eapply without_credentials; eauto.
    + rewrite (missing_credentials_run _ w argv) by auto. rewrite Hv, bind_ret_nil.
      eapply without_credentials; eauto.
Qed.

Lemma place_order_exchange_calls self symbol side order_type quantity price :
  exchange_calls (trace (place_order self symbol side order_type quantity price)) =
  order_calls (trace (place_order self symbol side order_type quantity price)).
Proof.
  rewrite place_order_unfold. cbv zeta. unfold trace. cbn [fst].
  assert (Hsub : forall p, exchange_calls (fst (submit self p)) = order_calls (fst (submit self p))).
  { intros p.
    destruct (submit_cases self p) as [(r & _ & E)|[(e' & _ & _ & E)|[(e' & _ & _ & E)|(e' & R & K & E)]]];
      rewrite E; reflexivity. }
  cbn [exchange_calls order_calls List.filter is_exchange_call is_order_call].
  destruct (String.eqb order_type ORDER_TYPE_LIMIT); [destruct price as [[p|]|]|];
    try apply Hsub; reflexivity.
Qed.

(** A validated request is always submitted. *)
Lemma validated_order_calls argv (args : Namespace) self :
  validate argv = ([], Val args) ->
  order_calls (trace (order_of self args))
    = [FuturesCreateOrder (wire_params (upper (symbol args)) (upper (side args))
                             (upper (type args)) (qty args) (price args))].
Proof.
  intros Hv. pose proof (validated_type _ _ _ _ Hv) as (Hty & _ & Hcases).
  pose proof (validated _ _ _ _ Hv) as (_ & _ & _ & Hprice).
  unfold order_of, wire_params. rewrite place_order_calls, Hty.
  destruct Hcases as [E|E]; rewrite E; [reflexivity|].
  destruct (Hprice E) as (p & -> & _). reflexivity.
Qed.

Lemma order_run_exchange_calls argv (args : Namespace) k s self :
  validate argv = ([], Val args) ->
  exchange_calls (connected k s ++ fst (order_of self args)) =
    [ NewClient k s "com" true; FuturesPing;
      FuturesCreateOrder (wire_params (upper (symbol args)) (upper (side args))
                            (upper (type args)) (qty args) (price args)) ].
Proof.
  intros Hv. rewrite exchange_calls_app.
  fold (trace (order_of self args)). unfold order_of at 1.
  rewrite place_order_exchange_calls. fold (order_of self args).
  rewrite (validated_order_calls _ _ _ Hv). reflexivity.
Qed.

(** X8. When the construction of the client or the ping raises,
    [BasicBot.__init__] logs the error and re-raises, main logs the
    same exception as critical and exits with status 1; the client is
    not reported as connected and no order is submitted. *)
Theorem connection_failure_exits_1 w argv t args k s e :
  validate argv = (t, Val args) ->
  truthy (getenv w "API_KEY") = Some k ->
  truthy (getenv w "API_SECRET") = Some s ->
  (Client w k s "com" true = Raises e \/
   exists self, Client w k s "com" true = Returns self /\ futures_ping self = Raises e) ->
  exit_status (run w argv) = 1%Z /\
  order_calls (trace (run w argv)) = [] /\
  records (trace (run w argv)) =
    [ Logged INFO [Lit "Initializing BasicBot..."];
      Logged ERROR [Lit "Error initializing Binance Client: "; Lit (text e)];
      Logged CRITICAL [Lit "Main execution failed: "; Lit (text e)] ].
Proof.
  intros Hv Hk Hs Hfail. pose proof (validated_quietly _ _ _ _ Hv) as ->.
  destruct (BasicBot_cases w k s true)
    as [(self & Hc & Hping & Hb)|[(e' & Hc & Hb)|(self & e' & Hc & Hping & Hb)]].
  - exfalso. destruct Hfail as [H|(self' & H & Hp)]; rewrite Hc in H; [discriminate H|].
    injection H as <-. rewrite Hping in Hp. discriminate Hp.
  - assert (e' = e) as ->.
    { destruct Hfail as [H|(self' & H & _)]; rewrite Hc in H; [injection H as <-; reflexivity|discriminate H]. }
    rewrite (main_init_failed _ _ _ _ _ _ _ Hv Hk Hs Hb). repeat split.
  - assert (e' = e) as ->.
    { destruct Hfail as [H|(self' & H & Hp)]; rewrite Hc in H; [discriminate H|].
      injection H as <-. rewrite Hping in Hp. injection Hp as <-. reflexivity. }
    rewrite (main_init_failed _ _ _ _ _ _ _ Hv Hk Hs Hb). repeat split.
Qed.

(** X9. With [API_KEY] or [API_SECRET] absent from the environment, a
    run whose arguments are valid logs the error, prints the message
    for the user and exits with status 1; no client is constructed. *)
Theorem absent_credential_exits_1 w argv t args :
  validate argv = (t, Val args) ->
  getenv w "API_KEY" = None \/ getenv w "API_SECRET" = None ->
  run w argv =
    ([ Log ERROR [Lit "API keys not loaded. Check your .env file."];
       Stdout [Lit "Error: API_KEY or API_SECRET not found."] ],
     Exit 1) /\
  exchange_calls (trace (run w argv)) = [].
Proof.
  intros Hv Habs. pose proof (validated_quietly _ _ _ _ Hv) as ->.
  rewrite (missing_credentials_run _ w argv)
    by (destruct Habs as [H|H]; rewrite H; auto).
  rewrite Hv, bind_ret_nil. split; reflexivity.
Qed.



(** X12. The process ends with status 2 exactly when the argument
    parser refuses the command line. *)
Theorem status_2_iff_usage_error w argv :
  exit_status (run w argv) = 2%Z <->
  exists err, parse_args float_of_string argv = UsageError err.
Proof.
  split.
  - destruct (main_ending w argv); cbn; intros Hst; try discriminate Hst. eauto.
  - intros [err H]. rewrite (usage_error_run _ w argv err H). reflexivity.
Qed.

(** X13. A run that ends with status 0 either printed the help or
    submitted exactly one order, after the client was constructed and
    the ping answered: status 0 is never reached without one of them. *)
Theorem status_0_means_help_or_order w argv :
  exit_status (run w argv) = 0%Z ->
  (parse_args float_of_string argv = HelpExit /\ run w argv = ([HelpMessage], Exit 0)) \/
  (exists k s ps,
     exchange_calls (trace (run w argv))
       = [NewClient k s "com" true; FuturesPing; FuturesCreateOrder ps] /\
     snd (run w argv) = Val tt).
Proof.
  destruct (main_ending w argv)
    as [err Hp|Hp|args t Hp Hv (msg & ->)|args Hp Hl Hv|args Hv Hc|args k s tb e Hv Hk Hs Hb
       |args k s self Hv Hk Hs Hc Hping Hl
       |args k s self r Hv Hk Hs Hc Hping Ho|args k s self e Hv Hk Hs Hc Hping Ho];
    unfold exit_status, trace; cbn [fst snd]; intros Hst; try discriminate Hst.
  - left. auto.
  - right. exists k, s. eexists. split; [|reflexivity].
    apply (order_run_exchange_calls _ _ k s self Hv).
Qed.

(** X14. [validate_and_parse_args] returns the parsed arguments exactly
    when the parser accepts the command line, the quantity is not
    [<= 0] and, for type LIMIT, the price is present and not [<= 0];
    it then logs nothing. *)
Theorem validation_accepts_iff argv (args : Namespace) :
  validate argv = ([], Val args) <->
  parse_args float_of_string argv = Parsed args /\
  le_zero (qty args) = false /\
  (type args = "LIMIT" -> exists p, price args = Some p /\ le_zero p = false).
Proof.
  split.
  - intros H. apply validated in H. tauto.
  - intros (Hp & Hq & Hpr). rewrite (validate_parsed _ _ _ Hp), Hq. cbv zeta.
    destruct (String.eqb (type args) "LIMIT") eqn:Hty; [|reflexivity].
    apply String.eqb_eq in Hty. destruct (Hpr Hty) as (p & -> & ->). reflexivity.
Qed.

(** X15. The validation compares with [<= 0] and so lets through a
    quantity that is not a number, or infinite: such a market order
    is validated and submitted with that quantity. *)
Theorem nan_quantity_is_accepted argv args self :
  parse_args float_of_string argv = Parsed args ->
  qty args = S754_nan \/ qty args = S754_infinity false ->
  type args = "MARKET" ->
  validate argv = ([], Val args) /\
  exists ps,
    order_calls (trace (order_of self args)) = [FuturesCreateOrder ps] /\
    ps !! "quantity" = Some (VFloat (qty args)).
Proof.
  intros Hp Hq Hty.
  assert (Hv : validate argv = ([], Val args)).
  { rewrite (validate_parsed _ _ _ Hp).
    replace (le_zero (qty args)) with false by (destruct Hq as [-> | ->]; reflexivity).
    rewrite Hty. reflexivity. }
  split; [exact Hv|]. eexists. split; [apply (validated_order_calls _ _ _ Hv)|].
  unfold wire_params. pose proof (validated_type _ _ _ _ Hv) as (-> & _).
  rewrite Hty. reflexivity.
Qed.



(** X21. A run with valid arguments, both credentials, a client that
    connects and an order the exchange answers ends with status 0: the
    exchange sees the client construction, the ping and the one order,
    and the confirmation is printed with the three fields of the
    response. *)
Theorem successful_order_exits_0 w argv t (args : Namespace) k s self r :
  validate argv = (t, Val args) ->
  truthy (getenv w "API_KEY") = Some k ->
  truthy (getenv w "API_SECRET") = Some s ->
  Client w k s "com" true = Returns self ->
  futures_ping self = Returns tt ->
  (forall ps, futures_create_order self ps = Returns r) ->
  exit_status (run w argv) = 0%Z /\
  (exists ps, exchange_calls (trace (run w argv))
              = [NewClient k s "com" true; FuturesPing; FuturesCreateOrder ps]) /\
  printed (trace (run w argv)) =
    [ [Lit nl; Lit "Order Placed Successfully:"];
      [Lit "   Order ID: "; Lit (str_of_get (r !! "orderId"))];
      [Lit "   Status: "; Lit (str_of_get (r !! "status"))];
      [Lit "   Type: "; Lit (str_of_get (r !! "type"))] ].
Proof.
  intros Hv Hk Hs Hc Hping Hret. pose proof (validated _ _ _ _ Hv) as (-> & _ & _ & Hprice).
  pose proof (validated_type _ _ _ _ Hv) as (Hty & _ & _).
  assert (Hdef : upper (type args) = ORDER_TYPE_LIMIT -> price args <> None).
  { rewrite Hty. intros E. destruct (Hprice E) as (p & -> & _). discriminate. }
  assert (Ho : snd (order_of self args) = Val (Some r) /\
               printed (fst (order_of self args)) =
                 [ [Lit nl; Lit "Order Placed Successfully:"];
                   [Lit "   Order ID: "; Lit (str_of_get (r !! "orderId"))];
                   [Lit "   Status: "; Lit (str_of_get (r !! "status"))];
                   [Lit "   Type: "; Lit (str_of_get (r !! "type"))] ]).
  { unfold order_of. rewrite (place_order_submits _ _ _ _ _ _ Hdef).
    rewrite (submit_returned _ _ r (Hret _)). split; reflexivity. }
  destruct Ho as [Hsnd Hprinted].
  rewrite (main_connected _ _ _ _ _ _ _ Hv Hk Hs Hc Hping), Hsnd.
  unfold exit_status, trace. cbn [fst snd].
  split; [reflexivity|]. split.
  - eexists. apply (order_run_exchange_calls _ _ k s self Hv).
  - unfold printed in *. rewrite flat_map_app, Hprinted. reflexivity.
Qed.

End RunFacts.

(** ** The log *)


Lemma LOGGER_receivers lvl :
  receivers LOGGER lvl =
    match lvl with
    | DEBUG => [LogFile "trading_log.log"]
    | _ => [LogFile "trading_log.log"; StdoutStream]
    end.
Proof. destruct lvl; reflexivity. Qed.

Lemma stdout_routing (t : list event) :
  output LOGGER StdoutStream t =
    flat_map (fun ev =>
                match ev with
                | Stdout m => [Printed m]
                | HelpMessage => [HelpText]
                | Log DEBUG _ => []
                | Log lvl m => [Logged lvl m]
                | _ => []
                end) t.
Proof.
  unfold output. induction t as [|ev t IH]; [reflexivity|]. cbn [flat_map]. rewrite IH. f_equal.
  destruct ev as [lvl m| | | | | |]; try reflexivity.
  unfold written_to. rewrite LOGGER_receivers. destruct lvl; reflexivity.
Qed.

(** X18. With the logger as [setup_logging] configures it, every
    record of a run is appended to [trading_log.log], and standard
    output receives, in order, what is printed and the records of
    every level but DEBUG. *)
Theorem log_routing (t : list event) :
  output LOGGER (LogFile "trading_log.log") t = records t /\
  output LOGGER StdoutStream t =
    flat_map (fun ev =>
                match ev with
                | Stdout m => [Printed m]
                | HelpMessage => [HelpText]
                | Log DEBUG _ => []
                | Log lvl m => [Logged lvl m]
                | _ => []
                end) t.
Proof.
  split.
  - unfold output, records. induction t as [|ev t IH]; [reflexivity|]. cbn [flat_map]. rewrite IH. f_equal.
    destruct ev as [lvl m| | | | | |]; try reflexivity.
    unfold written_to. rewrite LOGGER_receivers. destruct lvl; reflexivity.
  - apply stdout_routing.
Qed.

Lemma quiet_output t :
  forallb quiet t = true ->
  Forall (fun l => line_shows_response l = false) (output LOGGER StdoutStream t).
Proof.
  intros H. rewrite stdout_routing. induction t as [|ev t IH]; [constructor|].
  cbn [forallb] in H. apply andb_true_iff in H as [Hev Ht].
  cbn [flat_map]. apply Forall_app. split; [|apply IH, Ht].
  destruct ev as [[] m|m| | | | |]; cbn in *; repeat constructor;
    apply negb_true_iff in Hev; exact Hev.
Qed.

Lemma attempt_quiet symbol side order_type quantity price :
  shows_response (attempt symbol side order_type quantity price) = false.
Proof.
  unfold attempt. destruct price as [[p|]|]; [destruct (float_truthy p)| |]; reflexivity.
Qed.

Lemma place_order_quiet self symbol side order_type quantity price :
  forallb quiet (trace (place_order self symbol side order_type quantity price)) = true.
Proof.
  rewrite place_order_unfold. cbv zeta. unfold trace. cbn [fst forallb quiet].
  rewrite attempt_quiet. cbn [negb andb].
  assert (Hsub : forall p, forallb quiet (fst (submit self p)) = true).
  { intros p.
    destruct (submit_cases self p) as [(r & _ & E)|[(e' & _ & _ & E)|[(e' & _ & _ & E)|(e' & R & K & E)]]];
      rewrite E; reflexivity. }
  destruct (String.eqb order_type ORDER_TYPE_LIMIT); [destruct price as [[p|]|]|];
    try apply Hsub; reflexivity.
Qed.

Section LogFacts.

Variable float_of_string : string -> option float.

Lemma main_quiet w argv : forallb quiet (trace (main float_of_string w argv)) = true.
Proof.
  destruct (main_ending float_of_string w argv)
    as [err Hp|Hp|args t Hp Hv (msg & ->)|args Hp Hl Hv|args Hv Hc|args k s tb e Hv Hk Hs Hb
       |args k s self Hv Hk Hs Hc Hping Hl
       |args k s self r Hv Hk Hs Hc Hping Ho|args k s self e Hv Hk Hs Hc Hping Ho];
    try reflexivity.
  - destruct (validate_cases float_of_string argv)
      as [(err & _ & E)|[(_ & E)|[(a & _ & _ & E)|[(a & q & _ & _ & _ & E)
         |[(a & q & _ & _ & _ & _ & _ & E)|(a & q & _ & _ & _ & _ & E)]]]]];
      rewrite E in Hv; try discriminate Hv; injection Hv as <-; reflexivity.
  - destruct (BasicBot_cases w k s true)
      as [(self & _ & _ & Hb')|[(e' & _ & Hb')|(self & e' & _ & _ & Hb')]];
      rewrite Hb in Hb'; injection Hb' as -> ?; reflexivity.
  - unfold trace. cbn [fst]. rewrite forallb_app. apply andb_true_iff. split; [reflexivity|].
    apply place_order_quiet.
  - unfold trace. cbn [fst]. rewrite !forallb_app. apply andb_true_iff. split; [reflexivity|].
    apply andb_true_iff. split; [apply place_order_quiet | reflexivity].
Qed.

(** X19. The whole response of the exchange is written to the log file
    only: in no run does a line on standard output, printed or logged,
    hold the response itself. *)
Theorem response_never_on_stdout w argv :
  Forall (fun l => line_shows_response l = false)
         (output LOGGER StdoutStream (trace (main float_of_string w argv))).
Proof. apply quiet_output, main_quiet. Qed.

End LogFacts.

(** ** Witnesses of the further properties *)




Lemma place_order_raises_only_unclassified_witness :
  snd (place_order (rejecting_client timed_out) "BTCUSDT" "BUY" "MARKET" (float_of_Z 1) None)
    = Raise timed_out /\
  kind timed_out = OtherException.
Proof.
  assert (H : snd (place_order (rejecting_client timed_out) "BTCUSDT" "BUY" "MARKET"
                     (float_of_Z 1) None) = Raise timed_out) by reflexivity.
  split; [exact H|].
  exact (proj1 (place_order_raises_only_unclassified (rejecting_client timed_out)
                  "BTCUSDT" "BUY" "MARKET" (float_of_Z 1) None timed_out H)).
Defined.

Lemma non_limit_order_has_five_fields_witness :
  "limit" <> ORDER_TYPE_LIMIT /\
  order_calls (trace (place_order (filling_client filled) "BTCUSDT" "BUY" "limit"
                        (float_of_Z 1) (Some (float_of_Z 5))))
    = [FuturesCreateOrder (plain_order_params "BTCUSDT" "BUY" "limit" (float_of_Z 1))].
Proof.
  assert (H : "limit" <> ORDER_TYPE_LIMIT) by discriminate.
  split; [exact H|].
  exact (proj1 (non_limit_order_has_five_fields (filling_client filled) "BTCUSDT" "BUY"
                  "limit" (float_of_Z 1) (Some (float_of_Z 5)) H)).
Defined.

Lemma zero_price_is_submitted_unmentioned_witness :
  float_truthy zero = false /\
  In (Log INFO (attempt "BTCUSDT" "BUY" ORDER_TYPE_LIMIT (float_of_Z 1) None))
     (trace (place_order (filling_client filled) "BTCUSDT" "BUY" ORDER_TYPE_LIMIT
               (float_of_Z 1) (Some zero))).
Proof.
  split; [reflexivity|].
  exact (proj1 (zero_price_is_submitted_unmentioned (filling_client filled) "BTCUSDT" "BUY"
                  (float_of_Z 1) zero eq_refl)).
Defined.

Lemma connection_failure_exits_1_witness :
  validate_and_parse_args decimal_literal market_buy = ([], Val market_buy_args) /\
  Client (unreachable timed_out) "key" "secret" "com" true = Raises timed_out /\
  exit_status (main decimal_literal (unreachable timed_out) market_buy) = 1%Z.
Proof.
  assert (Hv : validate_and_parse_args decimal_literal market_buy
               = ([], Val market_buy_args)) by reflexivity.
  split; [exact Hv|]. split; [reflexivity|].
  exact (proj1 (connection_failure_exits_1 decimal_literal (unreachable timed_out)
                  market_buy [] market_buy_args "key" "secret" timed_out
                  Hv eq_refl eq_refl (or_introl eq_refl))).
Defined.

Lemma absent_credential_exits_1_witness :
  validate_and_parse_args decimal_literal market_buy = ([], Val market_buy_args) /\
  getenv (no_environment (filling_client filled)) "API_KEY" = None /\
  exchange_calls (trace (main decimal_literal (no_environment (filling_client filled))
                           market_buy)) = [].
Proof.
  assert (Hv : validate_and_parse_args decimal_literal market_buy
               = ([], Val market_buy_args)) by reflexivity.
  split; [exact Hv|]. split; [reflexivity|].
  exact (proj2 (absent_credential_exits_1 decimal_literal
                  (no_environment (filling_client filled)) market_buy [] market_buy_args
                  Hv (or_introl eq_refl))).
Defined.

Lemma status_0_means_help_or_order_witness :
  exit_status (main decimal_literal (testnet (filling_client filled)) market_buy) = 0%Z /\
  ((parse_args decimal_literal market_buy = HelpExit /\
    main decimal_literal (testnet (filling_client filled)) market_buy
      = ([HelpMessage], Exit 0)) \/
   (exists k s ps,
      exchange_calls (trace (main decimal_literal (testnet (filling_client filled))
                               market_buy))
        = [NewClient k s "com" true; FuturesPing; FuturesCreateOrder ps] /\
      snd (main decimal_literal (testnet (filling_client filled)) market_buy) = Val tt)).
Proof.
  assert (H : exit_status (main decimal_literal (testnet (filling_client filled)) market_buy)
              = 0%Z) by reflexivity.
  split; [exact H|].
  exact (status_0_means_help_or_order decimal_literal (testnet (filling_client filled))
           market_buy H).
Defined.

Lemma nan_quantity_is_accepted_witness :
  parse_args float_literal nan_qty = Parsed nan_qty_args /\
  qty nan_qty_args = S754_nan /\
  validate_and_parse_args float_literal nan_qty = ([], Val nan_qty_args).
Proof.
  assert (Hp : parse_args float_literal nan_qty = Parsed nan_qty_args) by reflexivity.
  split; [exact Hp|]. split; [reflexivity|].
  exact (proj1 (nan_quantity_is_accepted float_literal nan_qty nan_qty_args
                  (filling_client filled) Hp (or_introl eq_refl) eq_refl)).
Defined.



Lemma successful_order_exits_0_witness :
  validate_and_parse_args decimal_literal market_buy = ([], Val market_buy_args) /\
  (forall ps, futures_create_order (filling_client filled) ps = Returns filled) /\
  exit_status (main decimal_literal (testnet (filling_client filled)) market_buy) = 0%Z.
Proof.
  assert (Hv : validate_and_parse_args decimal_literal market_buy
               = ([], Val market_buy_args)) by reflexivity.
  split; [exact Hv|]. split; [intros ps; reflexivity|].
  exact (proj1 (successful_order_exits_0 decimal_literal (testnet (filling_client filled))
                  market_buy [] market_buy_args "key" "secret" (filling_client filled) filled
                  Hv eq_refl eq_refl eq_refl eq_refl (fun ps => eq_refl))).
Defined.
